(** * Excel mock interviewer: evaluation engine, interview agent and report

    A shallow embedding of [src/evaluation.py] and [src/agent.py].

    Modelling conventions.
    - Python floats are modelled as exact rationals [Q]; [round(x, 1)] is
      round-half-even to one decimal place on the exact value.
    - Python strings are [string] over ASCII; [str.lower], [str.upper],
      [str.split] and [str.strip] act on ASCII characters.
    - A JSON document returned by the language model is a [jval]; a parsed
      JSON object is an association list.  The model's answer at each retry
      attempt is an oracle input: [None] stands for any failure of the call
      (transport error, unparsable JSON, or a JSON value that is not an
      object, all of which raise inside the [try] block of the caller).
    - Spreadsheet parsing ([openpyxl.load_workbook], [pandas.read_excel]) is
      an external capability: its outcome is an input, [inl msg] when the
      library raises with message [msg].
    - Timestamps, logging and [time.sleep] have no observable effect on the
      values studied here and are left out. *)

From Stdlib Require Import List String Ascii ZArith QArith Qround Qminmax Lqa Lia Bool.
Import ListNotations.

Open Scope string_scope.
Set Warnings "-register-all".

(** ** Python-like helpers *)

Module Py.

(** JSON values as produced by the JSON output parser. *)
Inductive jval : Type :=
| JNull
| JBool (b : bool)
| JNum (q : Q)
| JStr (s : string)
| JArr (l : list jval)
| JObj (l : list (string * jval)).

Definition jobj := list (string * jval).

(** [key in d] and [d[key]] / [d.get(key)] for a parsed object. *)
Fixpoint lookup (k : string) (d : jobj) : option jval :=
  match d with
  | [] => None
  | (k', v) :: d' => if String.eqb k k' then Some v else lookup k d'
  end.

(** [d.setdefault(k, v)]: a missing key is added at the end. *)
Definition setdefault (k : string) (v : jval) (d : jobj) : jobj :=
  match lookup k d with
  | Some _ => d
  | None => (d ++ [(k, v)])%list
  end.

(** [d[k] = v]. *)
Fixpoint set_key (k : string) (v : jval) (d : jobj) : jobj :=
  match d with
  | [] => [(k, v)]
  | (k', v') :: d' => if String.eqb k k' then (k', v) :: d' else (k', v') :: set_key k v d'
  end.

(** Python truthiness of a JSON value. *)
Definition truthy (v : jval) : bool :=
  match v with
  | JNull => false
  | JBool b => b
  | JNum q => negb (Qeq_bool q 0)
  | JStr s => negb (String.eqb s "")
  | JArr l => negb (Nat.eqb (List.length l) 0)
  | JObj l => negb (Nat.eqb (List.length l) 0)
  end.

(** [isinstance(v, (int, float))] and then [float(v)]: [bool] is a
    subclass of [int] in Python. *)
Definition as_number (v : jval) : option Q :=
  match v with
  | JNum q => Some q
  | JBool b => Some (if b then 1 else 0)
  | _ => None
  end.

Definition is_space (c : ascii) : bool :=
  let n := nat_of_ascii c in
  (Nat.leb 9 n && Nat.leb n 13) || (Nat.leb 28 n && Nat.leb n 32).

(** [len(s.split())]: the number of maximal runs of non-whitespace. *)
Fixpoint count_words_aux (in_word : bool) (s : string) : nat :=
  match s with
  | EmptyString => 0
  | String c s' =>
      if is_space c then count_words_aux false s'
      else ((if in_word then 0 else 1) + count_words_aux true s')%nat
  end.

Definition split_len (s : string) : nat := count_words_aux false s.

Definition lower_char (c : ascii) : ascii :=
  let n := nat_of_ascii c in
  if Nat.leb 65 n && Nat.leb n 90 then ascii_of_nat (n + 32)%nat else c.

Definition upper_char (c : ascii) : ascii :=
  let n := nat_of_ascii c in
  if Nat.leb 97 n && Nat.leb n 122 then ascii_of_nat (n - 32)%nat else c.

Fixpoint map_string (f : ascii -> ascii) (s : string) : string :=
  match s with
  | EmptyString => EmptyString
  | String c s' => String (f c) (map_string f s')
  end.

Definition lower (s : string) : string := map_string lower_char s.
Definition upper (s : string) : string := map_string upper_char s.

(** [t in s] for strings: substring test. *)
Fixpoint contains (t s : string) : bool :=
  String.prefix t s ||
  match s with
  | EmptyString => false
  | String _ s' => contains t s'
  end.

Fixpoint lstrip (s : string) : string :=
  match s with
  | EmptyString => EmptyString
  | String c s' => if is_space c then lstrip s' else s
  end.

Fixpoint rev_string (s : string) : string :=
  match s with
  | EmptyString => EmptyString
  | String c s' => rev_string s' ++ String c EmptyString
  end.

Definition strip (s : string) : string := rev_string (lstrip (rev_string (lstrip s))).

(** [round(x, 1)]: round half to even at one decimal. *)
Definition round_half_even (y : Q) : Z :=
  let f := Qfloor y in
  let d := y - inject_Z f in
  if negb (Qle_bool (1#2) d) then f
  else if negb (Qle_bool d (1#2)) then (f + 1)%Z
  else if Z.even f then f else (f + 1)%Z.

Definition round1 (x : Q) : Q := inject_Z (round_half_even (x * 10)) / 10.

(** [max(lo, min(hi, x))]. *)
Definition clamp (lo hi x : Q) : Q := Qmax lo (Qmin hi x).

(** The retry loop shared by the generator and the evaluator:
    [for attempt in range(max_retries): try: return body(attempt)
     except: if attempt == max_retries - 1: return fallback].
    [None] is the implicit [None] returned when the loop runs out. *)
Fixpoint retry_loop {A} (attempts : list nat) (last : nat)
    (body : nat -> option A) (fallback : A) : option A :=
  match attempts with
  | [] => None
  | a :: rest =>
      match body a with
      | Some r => Some r
      | None => if Nat.eqb a last then Some fallback
                else retry_loop rest last body fallback
      end
  end.

Definition with_retries {A} (max_retries : nat) (body : nat -> option A) (fallback : A)
  : option A :=
  retry_loop (seq 0 max_retries) (max_retries - 1) body fallback.

End Py.

Import Py.

(** Decimal rendering of a [nat], as in an f-string. *)
Fixpoint digits_aux (fuel n : nat) (acc : string) : string :=
  match fuel with
  | O => acc
  | S f =>
      let acc' := String (ascii_of_nat (48 + n mod 10)) acc in
      if Nat.ltb n 10 then acc' else digits_aux f (n / 10) acc'
  end.

Definition nat_to_string (n : nat) : string := digits_aux (S n) n "".

(** [list(set(xs))]: duplicates removed; the order of a Python set is
    unspecified, first occurrences are kept here. *)
Fixpoint dedup (xs : list string) : list string :=
  match xs with
  | [] => []
  | x :: xs' => x :: filter (fun y => negb (String.eqb x y)) (dedup xs')
  end.

(** ** [src/evaluation.py]: [AnswerEvaluator] *)

Module Evaluation.

Record EvaluationResult := mkEval {
  score : Q;
  feedback : string;
  strengths : list jval;
  improvements : list jval;
  category_scores : option jval
}.

(** *** Text answers: the heuristic fallback [_create_basic_text_evaluation] *)

Definition excel_terms : list string :=
  ["excel"; "formula"; "function"; "cell"; "range"; "worksheet"; "data"; "chart"].

Definition found_terms (answer : string) : list string :=
  filter (fun term => contains (lower term) (lower answer)) excel_terms.

Definition basic_text_raw_score (answer : string) : Q :=
  let word_count := split_len answer in
  let score := 5 in
  let score :=
    if Nat.leb 50 word_count then score + 1
    else if Nat.leb 25 word_count then score + (1#2)
    else if Nat.ltb word_count 10 then score - 2
    else score in
  let score := score + Qmin 2 (inject_Z (Z.of_nat (List.length (found_terms answer))) * (3#10)) in
  clamp 1 10 score.

Definition create_basic_text_evaluation (answer : string) : EvaluationResult :=
  {| score := round1 (basic_text_raw_score answer);
     feedback := "Basic evaluation completed. For detailed feedback, please ensure stable connection and try again.";
     strengths := [JStr "Provided a response to the question"];
     improvements := [JStr "Consider providing more detailed explanations with specific Excel examples"];
     category_scores := None |}.

(** *** Validation of a model response: [_validate_evaluation_response]
    ([true] when it does not raise). *)

Definition feedback_ok (fb : jval) : bool :=
  match fb with
  | JStr s => truthy fb && Nat.leb 10 (String.length (strip s))
  | _ => false   (* falsy: raises; truthy non-string: [.strip()] raises *)
  end.

Definition list_field_ok (k : string) (d : jobj) : bool :=
  match lookup k d with
  | None | Some (JArr _) => true
  | Some _ => false
  end.

Definition validate_evaluation_response (d : jobj) : bool :=
  match lookup "overall_score" d, lookup "detailed_feedback" d with
  | Some sc, Some fb =>
      match as_number sc with
      | Some q =>
          Qle_bool 0 q && Qle_bool q 10 && feedback_ok fb
          && list_field_ok "strengths" d && list_field_ok "improvements" d
      | None => false
      end
  | _, _ => false
  end.

(** The body of one model-scoring attempt shared by [evaluate_text_answer]
    and [_llm_excel_evaluation], after the model call: validation,
    [setdefault]s, clamping of the score to [0, 10]. *)
Definition llm_result (default_strength default_improvement : string)
    (resp : option jobj) : option EvaluationResult :=
  match resp with
  | None => None
  | Some d =>
      if negb (validate_evaluation_response d) then None else
      let d := setdefault "strengths" (JArr [JStr default_strength]) d in
      let d := setdefault "improvements" (JArr [JStr default_improvement]) d in
      let d := setdefault "category_scores" (JObj []) d in
      match lookup "overall_score" d, lookup "detailed_feedback" d with
      | Some sc, Some (JStr fb) =>
          match as_number sc with
          | Some q =>
              Some {| score := clamp 0 10 q;
                      feedback := fb;
                      strengths := match lookup "strengths" d with Some (JArr l) => l | _ => [] end;
                      improvements := match lookup "improvements" d with Some (JArr l) => l | _ => [] end;
                      category_scores := lookup "category_scores" d |}
          | None => None
          end
      | _, _ => None
      end
  end.

Definition text_llm_attempt (resp : option jobj) : option EvaluationResult :=
  llm_result "Shows understanding of the topic" "Consider providing more specific details" resp.

(** [evaluate_text_answer answer question_data]; [llm] lists the model's
    response at each attempt (the question data only enters the prompt). *)
Definition evaluate_text_answer (answer : string) (llm : list (option jobj))
  : option EvaluationResult :=
  with_retries 3 (fun attempt => text_llm_attempt (nth attempt llm None))
    (create_basic_text_evaluation answer).

(** *** Spreadsheet analysis: [_comprehensive_excel_analysis] *)

Inductive cell_value :=
| CStr (s : string)
| CNum (q : Q)
| CBool (b : bool)
| CEmpty.

(** The active worksheet as openpyxl exposes it: its cells in [iter_rows]
    order with their coordinates, and its charts. *)
Record Worksheet := mkWorksheet {
  ws_cells : list (string * cell_value);
  ws_charts : nat
}.

Record Workbook := mkWorkbook {
  wb_worksheets : nat;
  wb_active : option Worksheet
}.

Record DataFrame := mkDataFrame {
  df_rows : nat;
  df_columns : list string
}.

Record Analysis := mkAnalysis {
  file_readable : bool;
  worksheets_count : nat;
  data_present : bool;
  formulas : list (string * string);
  charts_count : nat;
  functions_used : list string;
  data_summary : option (nat * nat);
  errors : list string
}.

Definition is_upper (c : ascii) : bool :=
  let n := nat_of_ascii c in Nat.leb 65 n && Nat.leb n 90.

(** [re.findall(r'([A-Z]+)\(', s)]: every maximal run of capitals that is
    immediately followed by an opening parenthesis. *)
Fixpoint find_funcs_aux (run : string) (s : string) : list string :=
  match s with
  | EmptyString => []
  | String c s' =>
      if is_upper c then find_funcs_aux (run ++ String c EmptyString) s'
      else
        let rest := find_funcs_aux EmptyString s' in
        if Ascii.eqb c "(" && negb (String.eqb run "") then run :: rest else rest
  end.

Definition find_functions (formula : string) : list string :=
  find_funcs_aux EmptyString (upper formula).

(** A string made of the capitals A-Z only. *)
Fixpoint all_upper (s : string) : bool :=
  match s with
  | EmptyString => true
  | String c s' => is_upper c && all_upper s'
  end.

Definition formula_cells (ws : Worksheet) : list (string * string) :=
  flat_map (fun '(coord, v) =>
              match v with
              | CStr s => if String.prefix "=" s then [(coord, s)] else []
              | _ => []
              end) (ws_cells ws).

Definition empty_analysis : Analysis :=
  mkAnalysis false 0 false [] 0 [] None [].

Definition comprehensive_excel_analysis (load : string + Workbook) (read : string + DataFrame)
  : Analysis :=
  match load with
  | inl e => mkAnalysis false 0 false [] 0 [] None ["File analysis error: " ++ e]
  | inr wb =>
      match wb_active wb with
      | None =>
          (* [worksheet.iter_rows] on a missing active sheet raises *)
          mkAnalysis true (wb_worksheets wb) false [] 0 [] None
            ["File analysis error: 'NoneType' object has no attribute 'iter_rows'"]
      | Some ws =>
          let fs := formula_cells ws in
          let funcs := dedup (flat_map (fun '(_, f) => find_functions f) fs) in
          match read with
          | inl e =>
              mkAnalysis true (wb_worksheets wb) false fs (ws_charts ws) funcs None
                ["Data reading error: " ++ e]
          | inr df =>
              if Nat.eqb (df_rows df) 0 || Nat.eqb (List.length (df_columns df)) 0
              then mkAnalysis true (wb_worksheets wb) false fs (ws_charts ws) funcs None []
              else mkAnalysis true (wb_worksheets wb) true fs (ws_charts ws) funcs
                     (Some (df_rows df, List.length (df_columns df))) []
          end
      end
  end.

(** *** Heuristic file scoring: [_analysis_based_evaluation] *)

Definition advanced_functions : list string :=
  ["VLOOKUP"; "INDEX"; "MATCH"; "SUMIF"; "COUNTIF"; "PIVOT"].

Fixpoint join (sep : string) (xs : list string) : string :=
  match xs with
  | [] => ""
  | [x] => x
  | x :: xs' => x ++ sep ++ join sep xs'
  end.

Definition analysis_raw_score (a : Analysis) : Q :=
  let score := 5 in
  let score := if negb (file_readable a) then 2 else score in
  let score := if data_present a then score + 1 else score - 1 in
  let used_advanced := filter (fun f => existsb (String.eqb f) advanced_functions) (functions_used a) in
  let score :=
    match formulas a with
    | [] => score - 1
    | _ :: _ => score + (3#2) + (match used_advanced with [] => 0 | _ => 1 end)
    end in
  let score := if Nat.ltb 0 (charts_count a) then score + (1#2) else score in
  let score := match errors a with [] => score | _ => score - (1#2) end in
  clamp 1 10 score.

Definition analysis_based_evaluation (a : Analysis) : EvaluationResult :=
  let used_advanced := filter (fun f => existsb (String.eqb f) advanced_functions) (functions_used a) in
  let '(fb, st, im) :=
    if negb (file_readable a)
    then (["File could not be read properly."], @nil string,
          ["Ensure file is in correct Excel format (.xlsx or .xls)"])
    else (@nil string, ["File is properly formatted and readable"], @nil string) in
  let '(st, im) :=
    if data_present a then ((st ++ ["Contains data as expected"])%list, im)
    else (st, (im ++ ["Include relevant data in the spreadsheet"])%list) in
  let '(st, im) :=
    match formulas a with
    | [] => (st, (im ++ ["Include relevant formulas to solve the problem"])%list)
    | _ :: _ =>
        let msg := "Uses " ++ nat_to_string (List.length (formulas a)) ++ " formulas" in
        let st := (st ++ [msg])%list in
        match used_advanced with
        | [] => (st, im)
        | _ => let msg := "Uses advanced functions: " ++ join ", " used_advanced in
               ((st ++ [msg])%list, im)
        end
    end in
  let chart_msg := "Includes " ++ nat_to_string (charts_count a) ++ " chart(s)" in
  let st :=
    if Nat.ltb 0 (charts_count a)
    then (st ++ [chart_msg])%list
    else st in
  let im := match errors a with [] => im | _ => (im ++ ["Address file structure issues"])%list end in
  {| score := round1 (analysis_raw_score a);
     feedback := "Analysis-based evaluation: " ++
                 (match fb with [] => "Basic Excel file analysis completed." | _ => join " " fb end);
     strengths := map JStr st;
     improvements := map JStr im;
     category_scores := None |}.

(** *** The prompt of [_llm_excel_evaluation] and its template

    [ChatPromptTemplate.from_template(prompt)] reads [prompt] as a
    [str.format] template: its input variables are the field names that
    [string.Formatter().parse] yields.  [chain.invoke({})] then raises when
    that scan raises, or when a variable is missing from [{}], that is when
    the template has any variable at all. *)

(** The states of CPython's format-string scanner ([MarkupIterator_next]
    and [parse_field]): literal text; a field name; an index [[...]] inside
    a field name; after [!], before the conversion character; after the
    conversion, before [:] or the closing brace; a format spec, with the
    number of nested braces it has opened. *)
Inductive fmode :=
| FLit
| FName (nm : string)
| FIndex (nm : string)
| FConv (nm : string)
| FAfterConv (nm : string)
| FSpec (nm : string) (depth : nat).

(** [Formatter().parse(template)], keeping the field names; [None] is the
    [ValueError] the scan raises. *)
Fixpoint format_fields (m : fmode) (s : list ascii) : option (list string) :=
  match s with
  | [] => match m with FLit => Some [] | _ => None end
  | c :: s' =>
      match m with
      | FLit =>
          if Ascii.eqb c "{"%char then
            match s' with
            | [] => None   (* a single opening brace at the end *)
            | d :: s'' =>
                if Ascii.eqb d "{"%char then format_fields FLit s''
                else format_fields (FName "") s'
            end
          else if Ascii.eqb c "}"%char then
            match s' with
            | d :: s'' => if Ascii.eqb d "}"%char then format_fields FLit s'' else None
            | [] => None   (* a single closing brace *)
            end
          else format_fields FLit s'
      | FName nm =>
          if Ascii.eqb c "{"%char then None   (* an opening brace in a field name *)
          else if Ascii.eqb c "["%char then format_fields (FIndex (nm ++ String c "")) s'
          else if Ascii.eqb c "}"%char then option_map (cons nm) (format_fields FLit s')
          else if Ascii.eqb c ":"%char then format_fields (FSpec nm 0) s'
          else if Ascii.eqb c "!"%char then format_fields (FConv nm) s'
          else format_fields (FName (nm ++ String c "")) s'
      | FIndex nm =>
          if Ascii.eqb c "]"%char then format_fields (FName (nm ++ String c "")) s'
          else format_fields (FIndex (nm ++ String c "")) s'
      | FConv nm => format_fields (FAfterConv nm) s'
      | FAfterConv nm =>
          if Ascii.eqb c "}"%char then option_map (cons nm) (format_fields FLit s')
          else if Ascii.eqb c ":"%char then format_fields (FSpec nm 0) s'
          else None   (* no colon after the conversion character *)
      | FSpec nm k =>
          if Ascii.eqb c "{"%char then format_fields (FSpec nm (S k)) s'
          else if Ascii.eqb c "}"%char then
            match k with
            | O => option_map (cons nm) (format_fields FLit s')
            | S k' => format_fields (FSpec nm k') s'
            end
          else format_fields (FSpec nm k) s'
      end
  end.

(** [ChatPromptTemplate.from_template(prompt)] and [invoke({})] raise. *)
Definition template_raises (prompt : string) : bool :=
  match format_fields FLit (list_ascii_of_string prompt) with
  | None => true
  | Some vars => negb (Nat.eqb (List.length vars) 0)
  end.

Definition nl : string := String (ascii_of_nat 10) "".

Definition dq : string := String (ascii_of_nat 34) "".

Definition quoted (s : string) : string := dq ++ s ++ dq.

Definition unlines (ls : list string) : string := String.concat nl ls.

(** [str(b)] of a [bool]. *)
Definition py_bool_str (b : bool) : string := if b then "True" else "False".

Definition hex_digit (n : nat) : ascii :=
  ascii_of_nat (if Nat.ltb n 10 then 48 + n else 87 + n).

(** [repr(s)] of an ASCII string: single quotes, unless [s] holds a single
    quote and no double quote; the backslash and the quote escaped, tab,
    newline and carriage return as [\t], [\n], [\r], other control
    characters as [\xhh]. *)
Definition py_str_repr (s : string) : string :=
  let chars := list_ascii_of_string s in
  let sq := ascii_of_nat 39 in
  let dqc := ascii_of_nat 34 in
  let quote :=
    if existsb (Ascii.eqb sq) chars && negb (existsb (Ascii.eqb dqc) chars)
    then dqc else sq in
  let esc (c : ascii) : string :=
    let n := nat_of_ascii c in
    if Ascii.eqb c quote || Nat.eqb n 92 then String (ascii_of_nat 92) (String c "")
    else if Nat.eqb n 9 then "\t"
    else if Nat.eqb n 10 then "\n"
    else if Nat.eqb n 13 then "\r"
    else if Nat.ltb n 32 || Nat.eqb n 127
    then "\x" ++ String (hex_digit (n / 16)) (String (hex_digit (n mod 16)) "")
    else String c "" in
  String quote (String.concat "" (map esc chars) ++ String quote "").

(** [str(l)] of a list of strings. *)
Definition py_list_repr (l : list string) : string :=
  "[" ++ String.concat ", " (map py_str_repr l) ++ "]".

(** [str(analysis['data_summary'])]: [{}] when no data was read; otherwise
    the dict of five keys, of which the analysis keeps the row and column
    counts; [summary_tail] is the printed rest of the dict (the column
    names, the numeric columns, [has_headers] and the closing brace), which
    depends on the column labels and dtypes of the frame. *)
Definition data_summary_str (summary_tail : string) (a : Analysis) : string :=
  match data_summary a with
  | None => "{}"
  | Some (rows, cols) =>
      "{'rows': " ++ nat_to_string rows ++ ", 'columns': " ++ nat_to_string cols ++ summary_tail
  end.

(** The lines of the f-string before [- Data summary: ...]. *)
Definition excel_prompt_before (task : string) (a : Analysis) : string :=
  unlines
    ["You are an expert Excel instructor evaluating a student's Excel file submission.";
     "";
     "TASK DESCRIPTION:";
     task;
     "";
     "FILE ANALYSIS RESULTS:";
     "- File readable: " ++ py_bool_str (file_readable a);
     "- Number of worksheets: " ++ nat_to_string (worksheets_count a);
     "- Data present: " ++ py_bool_str (data_present a);
     "- Number of formulas: " ++ nat_to_string (List.length (formulas a));
     "- Functions used: " ++
       (match functions_used a with [] => "None" | fs => String.concat ", " fs end);
     "- Charts: " ++ nat_to_string (charts_count a)] ++ nl.

(** The lines of the f-string after [- Data summary: ...]; the f-string's
    doubled braces print as [{{] and [}}]. *)
Definition excel_prompt_after (a : Analysis) : string :=
  unlines
    ["- Formulas found: " ++ py_list_repr (map snd (firstn 5 (formulas a))) ++ "  # First 5 formulas";
     "- Errors: " ++ py_list_repr (errors a);
     "";
     "EVALUATION CRITERIA:";
     "1. Formula Correctness (40%): Are the formulas accurate and appropriate?";
     "2. Data Structure (25%): Is the data well-organized and properly formatted?";
     "3. Functionality (20%): Does the solution work and meet requirements?";
     "4. Best Practices (15%): Does it follow Excel best practices?";
     "";
     "SCORING SCALE:";
     "9-10: Exceptional work, exceeds expectations";
     "7-8: Good work with minor issues";
     "5-6: Adequate but missing key elements";
     "3-4: Below average with significant issues";
     "1-2: Poor work with major problems";
     "";
     "CRITICAL: Return ONLY valid JSON with ALL required fields:";
     "{{";
     "    " ++ quoted "overall_score" ++ ": 0-10,";
     "    " ++ quoted "category_scores" ++ ": {{";
     "        " ++ quoted "formula_correctness" ++ ": 0-10,";
     "        " ++ quoted "data_structure" ++ ": 0-10,";
     "        " ++ quoted "functionality" ++ ": 0-10,";
     "        " ++ quoted "best_practices" ++ ": 0-10";
     "    }},";
     "    " ++ quoted "strengths" ++ ": [" ++ quoted "specific strength 1" ++ ", " ++
       quoted "specific strength 2" ++ "],";
     "    " ++ quoted "improvements" ++ ": [" ++ quoted "specific improvement 1" ++ ", " ++
       quoted "specific improvement 2" ++ "],";
     "    " ++ quoted "detailed_feedback" ++ ": " ++
       quoted "2-3 sentences of constructive feedback";
     "}}";
     "";
     "Ensure the JSON is valid and complete."].

(** The prompt of [_llm_excel_evaluation(analysis, task_description)]. *)
Definition excel_prompt (task summary_tail : string) (a : Analysis) : string :=
  excel_prompt_before task a ++ "- Data summary: " ++ data_summary_str summary_tail a ++ nl ++
  excel_prompt_after a.

(** *** [evaluate_excel_upload] *)

(** The result of the outer [except] handler. *)
Definition excel_error_result (e : string) : EvaluationResult :=
  {| score := 2;
     feedback := "Unable to process Excel file: " ++ e ++
       ". Please ensure the file is a valid Excel format (.xlsx or .xls) and try again.";
     strengths := [];
     improvements := [JStr "Verify file format and structure"; JStr "Ensure file is not corrupted";
                      JStr "Try uploading the file again"];
     category_scores := None |}.

(** The call to [_comprehensive_excel_analysis] inside the outer [try]:
    [inl] would be an exception escaping it; the analysis catches every
    exception of its own body, so the call always returns. *)
Definition run_analysis (load : string + Workbook) (read : string + DataFrame)
  : string + Analysis :=
  inr (comprehensive_excel_analysis load read).

(** What [_llm_excel_evaluation] does with a model response: validation,
    [setdefault]s, clamping of the score. *)
Definition excel_llm_attempt (resp : option jobj) : option EvaluationResult :=
  llm_result "File uploaded successfully" "Consider adding more comprehensive documentation" resp.

(** [_llm_excel_evaluation(analysis, task_description)]: the template is
    built from the prompt and invoked with [{}] before the model is called;
    [resp] is the model's response. *)
Definition llm_excel_evaluation (task summary_tail : string) (a : Analysis)
    (resp : option jobj) : option EvaluationResult :=
  if template_raises (excel_prompt task summary_tail a) then None
  else excel_llm_attempt resp.

(** [evaluate_excel_upload file_content task_description]: [load] and
    [read] are the outcomes of [load_workbook] and [pd.read_excel] on the
    bytes, [summary_tail] the printed rest of the data summary (see
    [data_summary_str]), [llm] the model's response at each attempt of
    [_llm_excel_evaluation]. *)
Definition evaluate_excel_upload (task summary_tail : string)
    (load : string + Workbook) (read : string + DataFrame)
    (llm : list (option jobj)) : option EvaluationResult :=
  match run_analysis load read with
  | inl e => Some (excel_error_result e)
  | inr analysis =>
      with_retries 3
        (fun attempt => llm_excel_evaluation task summary_tail analysis (nth attempt llm None))
        (analysis_based_evaluation analysis)
  end.

(** The evaluator returned a result, and its score lies in [0, 10]. *)
Definition score_in_range (o : option EvaluationResult) : Prop :=
  match o with
  | Some r => 0 <= score r /\ score r <= 10
  | None => False
  end.

End Evaluation.

(** ** [src/agent.py]: [InterviewAgent] *)

Module Agent.


Inductive InterviewPhase := INTRODUCTION | QUESTIONING | WRAP_UP | COMPLETED.

Definition phase_value (p : InterviewPhase) : string :=
  match p with
  | INTRODUCTION => "introduction"
  | QUESTIONING => "questioning"
  | WRAP_UP => "wrap_up"
  | COMPLETED => "completed"
  end.

Record QuestionHistory := mkQuestionHistory {
  question_id : Z;
  question_text : jval;
  question_type : string;
  difficulty_level : jval;
  skill_area : string;
  answer : option string;
  file_upload : option (list Byte.byte);
  score : option Q;
  feedback : option string;
  strengths : list jval;
  improvements : list jval
}.

Record InterviewState := mkInterviewState {
  candidate_name : option string;
  current_phase : InterviewPhase;
  question_count : Z;
  max_questions : Z;
  current_difficulty : Z;
  question_history : list QuestionHistory;
  overall_score : option Q;
  session_id : string
}.

(** The agent object: its interview state and the set [tested_skills]
    (kept as a duplicate-free list). *)
Record InterviewAgent := mkAgent {
  state : InterviewState;
  tested_skills : list string
}.

Definition skill_areas : list string :=
  ["Basic Functions (SUM, AVERAGE, COUNT)";
   "Lookup Functions (VLOOKUP, INDEX/MATCH)";
   "Pivot Tables and Data Analysis";
   "Data Validation and Conditional Formatting";
   "Advanced Formulas and Array Functions";
   "Charts and Visualization";
   "Data Cleaning and Transformation"].

Definition mem (x : string) (xs : list string) : bool := existsb (String.eqb x) xs.

(** [set.add]. *)
Definition set_add (x : string) (xs : list string) : list string :=
  if mem x xs then xs else (xs ++ [x])%list.

(** [InterviewState()]: the session id is built from the current time
    [now] ([strftime('%Y%m%d_%H%M%S')]). *)
Definition new_state (now : string) : InterviewState :=
  {| candidate_name := None; current_phase := INTRODUCTION; question_count := 0;
     max_questions := 5; current_difficulty := 2; question_history := [];
     overall_score := None; session_id := "interview_" ++ now |}.

Definition init_agent (now : string) : InterviewAgent :=
  {| state := new_state now; tested_skills := [] |}.

(** Turn results, as the dictionaries returned by the agent; [None] fields
    are absent keys.  Message texts are left out. *)
Record EvalDict := mkEvalDict {
  e_score : Q;
  e_feedback : string;
  e_strengths : list jval;
  e_improvements : list jval;
  e_error : bool
}.

Record Response := mkResponse {
  r_phase : option string;
  r_error : option string;
  r_question : option jobj;
  r_evaluation : option (option EvalDict);
  r_question_id : option Z;
  r_overall_score : option Q;
  r_next_action : option string
}.

Definition empty_response : Response := mkResponse None None None None None None None.

(** State updates used below. *)
Definition with_state (a : InterviewAgent) (st : InterviewState) : InterviewAgent :=
  {| state := st; tested_skills := tested_skills a |}.

Definition set_phase (p : InterviewPhase) (st : InterviewState) : InterviewState :=
  {| candidate_name := candidate_name st; current_phase := p;
     question_count := question_count st; max_questions := max_questions st;
     current_difficulty := current_difficulty st; question_history := question_history st;
     overall_score := overall_score st; session_id := session_id st |}.

Definition set_count (n : Z) (st : InterviewState) : InterviewState :=
  {| candidate_name := candidate_name st; current_phase := current_phase st;
     question_count := n; max_questions := max_questions st;
     current_difficulty := current_difficulty st; question_history := question_history st;
     overall_score := overall_score st; session_id := session_id st |}.

Definition set_difficulty (d : Z) (st : InterviewState) : InterviewState :=
  {| candidate_name := candidate_name st; current_phase := current_phase st;
     question_count := question_count st; max_questions := max_questions st;
     current_difficulty := d; question_history := question_history st;
     overall_score := overall_score st; session_id := session_id st |}.

Definition set_history (h : list QuestionHistory) (st : InterviewState) : InterviewState :=
  {| candidate_name := candidate_name st; current_phase := current_phase st;
     question_count := question_count st; max_questions := max_questions st;
     current_difficulty := current_difficulty st; question_history := h;
     overall_score := overall_score st; session_id := session_id st |}.

Definition set_name (n : string) (st : InterviewState) : InterviewState :=
  {| candidate_name := Some n; current_phase := current_phase st;
     question_count := question_count st; max_questions := max_questions st;
     current_difficulty := current_difficulty st; question_history := question_history st;
     overall_score := overall_score st; session_id := session_id st |}.

Definition set_overall (s : Q) (st : InterviewState) : InterviewState :=
  {| candidate_name := candidate_name st; current_phase := current_phase st;
     question_count := question_count st; max_questions := max_questions st;
     current_difficulty := current_difficulty st; question_history := question_history st;
     overall_score := Some s; session_id := session_id st |}.

Definition start_interview (a : InterviewAgent) (now : string) : InterviewAgent * Response :=
  let st := set_phase INTRODUCTION (new_state now) in
  ({| state := st; tested_skills := tested_skills a |},
   {| r_phase := Some (phase_value (current_phase st)); r_error := None; r_question := None;
      r_evaluation := None; r_question_id := None; r_overall_score := None;
      r_next_action := Some "await_name" |}).

(** *** [_generate_next_question] *)

Definition available_skills (tested : list string) : list string :=
  match filter (fun skill => negb (mem skill tested)) skill_areas with
  | [] => skill_areas
  | l => l
  end.

Definition valid_types : list string := ["text"; "excel_upload"; "scenario"].

Definition required_fields : list string := ["question_text"; "question_type"; "skill_area"].

Definition field_present (d : jobj) (f : string) : bool :=
  match lookup f d with Some v => truthy v | None => false end.

Definition jstr_in (v : option jval) (xs : list string) : bool :=
  match v with Some (JStr s) => mem s xs | _ => false end.

Definition jstr_of (v : option jval) : string :=
  match v with Some (JStr s) => s | _ => "" end.

(** One successful attempt body: validation, coercions, defaults; the new
    history entry and the returned question dictionary.  [None]: raised. *)
Definition question_attempt (st : InterviewState) (available : list string)
    (resp : option jobj) : option (QuestionHistory * jobj) :=
  match resp with
  | None => None
  | Some d =>
      if negb (forallb (field_present d) required_fields) then None else
      let d := if jstr_in (lookup "question_type" d) valid_types then d
               else set_key "question_type" (JStr "text") d in
      match (if jstr_in (lookup "skill_area" d) available then Some d
             else match available with
                  | first :: _ => Some (set_key "skill_area" (JStr first) d)
                  | [] => None   (* [available_skills[0]] raises *)
                  end) with
      | None => None
      | Some d =>
          let d := setdefault "difficulty_level" (JNum (inject_Z (current_difficulty st))) d in
          let d := setdefault "expected_answer_format" (JStr "Detailed explanation") d in
          let d := setdefault "evaluation_criteria"
                     (JStr "Knowledge accuracy and communication clarity") d in
          let qh := {| question_id := question_count st;
                       question_text := match lookup "question_text" d with Some v => v | None => JNull end;
                       question_type := jstr_of (lookup "question_type" d);
                       difficulty_level := match lookup "difficulty_level" d with
                                           | Some v => v
                                           | None => JNum (inject_Z (current_difficulty st)) end;
                       skill_area := jstr_of (lookup "skill_area" d);
                       answer := None; file_upload := None; score := None; feedback := None;
                       strengths := []; improvements := [] |} in
          Some (qh, d)
      end
  end.

Definition basic_question_text : string :=
  "Explain how to use basic Excel functions for data analysis. Specifically, describe when and how you would use SUM, AVERAGE, and COUNT functions in a real-world scenario.".

(** The canned question used after the last failed attempt. *)
Definition basic_question (st : InterviewState) (available : list string)
  : QuestionHistory * jobj :=
  let skill := match available with
               | first :: _ => first
               | [] => "Basic Functions (SUM, AVERAGE, COUNT)"
               end in
  let difficulty := Z.max 1 (Z.min 3 (current_difficulty st)) in
  ({| question_id := question_count st; question_text := JStr basic_question_text;
      question_type := "text"; difficulty_level := JNum (inject_Z difficulty);
      skill_area := skill; answer := None; file_upload := None; score := None;
      feedback := None; strengths := []; improvements := [] |},
   [("question_text", JStr basic_question_text); ("question_type", JStr "text");
    ("difficulty_level", JNum (inject_Z difficulty)); ("skill_area", JStr skill);
    ("expected_answer_format", JStr "Detailed explanation with examples");
    ("evaluation_criteria", JStr "Understanding of basic functions and practical application")]).

(** [_generate_next_question]; [llm] holds the model's answer at each
    attempt.  The question dictionary is [None] only if the retry loop ran
    out without returning. *)
Definition generate_next_question (a : InterviewAgent) (llm : list (option jobj))
  : InterviewAgent * option jobj :=
  let st := set_count (question_count (state a) + 1) (state a) in
  let available := available_skills (tested_skills a) in
  match with_retries 3 (fun attempt => question_attempt st available (nth attempt llm None))
          (basic_question st available) with
  | Some (qh, d) =>
      ({| state := set_history (question_history st ++ [qh])%list st;
          tested_skills := set_add (skill_area qh) (tested_skills a) |}, Some d)
  | None => (with_state a st, None)
  end.

(** *** Answer handling *)

(** [_evaluate_response]: [outcomes] holds the outcome of the evaluator
    call at each attempt ([None]: it raised, e.g. [Evaluator not
    initialized]).  Which evaluator method is called (text or upload) is
    folded into the outcome. *)
Definition to_eval_dict (r : Evaluation.EvaluationResult) : EvalDict :=
  {| e_score := Evaluation.score r; e_feedback := Evaluation.feedback r;
     e_strengths := Evaluation.strengths r; e_improvements := Evaluation.improvements r;
     e_error := false |}.

Definition evaluation_error_dict : EvalDict :=
  {| e_score := 0;
     e_feedback := "Unable to evaluate response after 3 attempts. Please try again.";
     e_strengths := []; e_improvements := [JStr "Please resubmit your response"];
     e_error := true |}.

Definition evaluate_response (outcomes : list (option Evaluation.EvaluationResult))
  : option EvalDict :=
  with_retries 3 (fun attempt => option_map to_eval_dict (nth attempt outcomes None))
    evaluation_error_dict.

Definition adapt_difficulty (last_score : Q) (d : Z) : Z :=
  if Qle_bool (17#2) last_score then Z.min 5 (d + 1)
  else if Qle_bool last_score 4 then Z.max 1 (d - 1)
  else d.

Fixpoint Qsum (xs : list Q) : Q :=
  match xs with [] => 0 | x :: xs' => x + Qsum xs' end.

(** [sum(scores) / len(scores) if scores else 0]. *)
Definition mean (xs : list Q) : Q :=
  match xs with
  | [] => 0
  | _ => Qsum xs / inject_Z (Z.of_nat (List.length xs))
  end.

Definition recorded_scores (h : list QuestionHistory) : list Q :=
  flat_map (fun q => match score q with Some s => [s] | None => [] end) h.

(** The oracles of one turn: the model's answers for question generation
    and the evaluator outcomes. *)
Record TurnEnv := mkTurnEnv {
  gen_llm : list (option jobj);
  eval_outcomes : list (option Evaluation.EvaluationResult)
}.

(** A handler either returns a response or raises; in both cases the
    mutations it made before returning or raising are kept. *)
Definition Turn := (InterviewAgent * (string + Response))%type.

Definition handle_wrap_up (a : InterviewAgent) : Turn :=
  let st := set_phase COMPLETED (state a) in
  let scores := recorded_scores (question_history st) in
  let st := set_overall (mean scores) st in
  (with_state a st,
   inr {| r_phase := Some (phase_value (current_phase st)); r_error := None; r_question := None;
          r_evaluation := None; r_question_id := None; r_overall_score := overall_score st;
          r_next_action := Some "show_report" |}).

Definition handle_introduction (a : InterviewAgent) (user_input : string) (env : TurnEnv) : Turn :=
  let st := set_phase QUESTIONING (set_name (strip user_input) (state a)) in
  let '(a', q) := generate_next_question (with_state a st) (gen_llm env) in
  (a', inr {| r_phase := Some (phase_value (current_phase (state a'))); r_error := None;
              r_question := q; r_evaluation := None;
              r_question_id := Some (question_count (state a')); r_overall_score := None;
              r_next_action := Some "await_answer" |}).

Definition set_last {A} (x : A) (xs : list A) : list A :=
  (removelast xs ++ [x])%list.

Definition record_answer (user_input : string) (file : option (list Byte.byte))
    (q : QuestionHistory) : QuestionHistory :=
  {| question_id := question_id q; question_text := question_text q;
     question_type := question_type q; difficulty_level := difficulty_level q;
     skill_area := skill_area q; answer := Some user_input; file_upload := file;
     score := score q; feedback := feedback q; strengths := strengths q;
     improvements := improvements q |}.

Definition record_evaluation (e : EvalDict) (q : QuestionHistory) : QuestionHistory :=
  {| question_id := question_id q; question_text := question_text q;
     question_type := question_type q; difficulty_level := difficulty_level q;
     skill_area := skill_area q; answer := answer q; file_upload := file_upload q;
     score := Some (e_score e); feedback := Some (e_feedback e);
     strengths := e_strengths e; improvements := e_improvements e |}.

(** After the answer is recorded: the exit check, then wrap-up or the next
    question. *)
Definition questioning_continue (a : InterviewAgent) (ev : option EvalDict) (env : TurnEnv) : Turn :=
  if Z.leb (max_questions (state a)) (question_count (state a)) then
    handle_wrap_up (with_state a (set_phase WRAP_UP (state a)))
  else
    let '(a', q) := generate_next_question a (gen_llm env) in
    (a', inr {| r_phase := Some (phase_value (current_phase (state a'))); r_error := None;
                r_question := q; r_evaluation := Some ev;
                r_question_id := Some (question_count (state a')); r_overall_score := None;
                r_next_action := Some "await_answer" |}).

Definition handle_questioning_phase (a : InterviewAgent) (user_input : string)
    (file : option (list Byte.byte)) (env : TurnEnv) : Turn :=
  match last (map Some (question_history (state a))) None with
  | None => questioning_continue a None env
  | Some cq =>
      let cq := record_answer user_input file cq in
      let st := set_history (set_last cq (question_history (state a))) (state a) in
      match evaluate_response (eval_outcomes env) with
      | None => (with_state a st, inl "'NoneType' object is not subscriptable")
      | Some ev =>
          let cq := record_evaluation ev cq in
          let st := set_history (set_last cq (question_history st)) st in
          let st := set_difficulty (adapt_difficulty (e_score ev) (current_difficulty st)) st in
          questioning_continue (with_state a st) (Some ev) env
      end
  end.

Definition process_response (a : InterviewAgent) (user_input : string)
    (file : option (list Byte.byte)) (env : TurnEnv) : InterviewAgent * Response :=
  let '(a', r) :=
    match current_phase (state a) with
    | INTRODUCTION => handle_introduction a user_input env
    | QUESTIONING => handle_questioning_phase a user_input file env
    | WRAP_UP => handle_wrap_up a
    | COMPLETED =>
        (a, inr {| r_phase := None; r_error := Some "Invalid interview phase"; r_question := None;
                   r_evaluation := None; r_question_id := None; r_overall_score := None;
                   r_next_action := None |})
    end in
  match r with
  | inr resp => (a', resp)
  | inl e =>
      (a', {| r_phase := Some (phase_value (current_phase (state a'))); r_error := Some ("An error occurred: " ++ e);
              r_question := None; r_evaluation := None; r_question_id := None;
              r_overall_score := None; r_next_action := None |})
  end.

(** *** Sessions *)

(** The operations a caller performs on the agent. *)
Inductive Op :=
| OpStart (now : string)
| OpRespond (user_input : string) (file : option (list Byte.byte)) (env : TurnEnv).

Definition apply_op (a : InterviewAgent) (op : Op) : InterviewAgent :=
  match op with
  | OpStart now => fst (start_interview a now)
  | OpRespond i f env => fst (process_response a i f env)
  end.

(** The agent after [InterviewAgent(...)] created at time [now] and the
    operations [ops]. *)
Definition run_ops (now : string) (ops : list Op) : InterviewAgent :=
  fold_left apply_op ops (init_agent now).

(** One answer turn. *)
Definition respond (a : InterviewAgent) (t : string * option (list Byte.byte) * TurnEnv)
  : InterviewAgent :=
  let '(i, f, env) := t in fst (process_response a i f env).

Definition answered (q : QuestionHistory) : Prop := exists s, score q = Some s.

(** The agent waits for the answer to its [k]-th question: every earlier
    question has been scored, the last one has not. *)
Definition awaiting_answer (a : InterviewAgent) (k : nat) : Prop :=
  current_phase (state a) = QUESTIONING /\
  question_count (state a) = Z.of_nat k /\
  max_questions (state a) = 5%Z /\
  exists h q, question_history (state a) = (h ++ [q])%list /\
              S (List.length h) = k /\ Forall answered h /\ score q = None.

(** *** [get_interview_summary] *)

(** The agent's own [_get_performance_level]. *)
Definition agent_performance_level (s : Q) : string :=
  if Qle_bool (17#2) s then "Excellent"
  else if Qle_bool 7 s then "Good"
  else if Qle_bool 5 s then "Average"
  else "Needs Improvement".

(** The summary dictionary; the per-question dictionaries keep the fields
    of the history entries, the timestamp is left out. *)
Record InterviewSummary := mkSummary {
  s_session_id : string;
  s_candidate_name : option string;
  s_overall_score : option Q;
  s_performance_level : string;
  s_questions_completed : nat;
  s_question_history : list QuestionHistory;
  s_skills_tested : list string
}.

(** [self.state.overall_score or 0]: [None] and [0.0] both give [0]. *)
Definition get_interview_summary (a : InterviewAgent) : InterviewSummary :=
  {| s_session_id := session_id (state a);
     s_candidate_name := candidate_name (state a);
     s_overall_score := overall_score (state a);
     s_performance_level :=
       agent_performance_level (match overall_score (state a) with Some s => s | None => 0 end);
     s_questions_completed := List.length (question_history (state a));
     s_question_history := question_history (state a);
     s_skills_tested := tested_skills a |}.

(** *** Session invariants *)

(** Numbering: [question_count] is the number of history entries, which
    are numbered 1, 2, ... in order, and there are at most
    [max_questions] = 5 of them. *)
Definition numbering_ok (st : InterviewState) : Prop :=
  max_questions st = 5%Z /\
  question_count st = Z.of_nat (List.length (question_history st)) /\
  map question_id (question_history st) =
    map Z.of_nat (seq 1 (List.length (question_history st))) /\
  (List.length (question_history st) <= 5)%nat.

(** [tested_skills] holds known skill areas, each once. *)
Definition skills_ok (tested : list string) : Prop :=
  NoDup tested /\ incl tested skill_areas.

(** Between two calls the agent is never in the wrap-up phase; it has no
    question in the introduction, is waiting for the answer to its last
    question while questioning, and has scored all 5 questions once
    completed. *)
Definition session_ok (a : InterviewAgent) : Prop :=
  numbering_ok (state a) /\ skills_ok (tested_skills a) /\
  current_phase (state a) <> WRAP_UP /\
  (current_phase (state a) = INTRODUCTION -> question_history (state a) = []) /\
  (current_phase (state a) = QUESTIONING ->
     question_history (state a) <> [] /\ Forall answered (removelast (question_history (state a)))) /\
  (current_phase (state a) = COMPLETED ->
     overall_score (state a) <> None /\ Forall answered (question_history (state a)) /\
     List.length (question_history (state a)) = 5%nat).

End Agent.

(** ** [src/evaluation.py]: [create_performance_report] *)

Module Report.

(** A question entry of [interview_data['question_history']]; [None] is a
    missing key ([get_interview_summary] always provides both). *)
Record QuestionEntry := mkEntry {
  q_skill_area : option string;
  q_score : option Q;
  q_strengths : list jval;
  q_improvements : list jval
}.

Definition skill_of (q : QuestionEntry) : string :=
  match q_skill_area q with Some s => s | None => "General Excel" end.

Record SkillData := mkSkillData {
  sd_scores : list Q;
  sd_questions : nat
}.

Record SkillEntry := mkSkillEntry {
  average_score : Q;
  questions_asked : nat;
  performance_level : string
}.

Record PerformanceReport := mkReport {
  overall_score : Q;
  report_level : string;
  total_questions : nat;
  questions_completed : nat;
  skill_breakdown : list (string * SkillEntry);
  strengths : list jval;
  improvements : list jval;
  recommendations : list string
}.

(** [{"report": ..., "error": ...}]; [report = None] is the empty payload
    [{}]. *)
Record ReportResult := mkReportResult {
  report : option PerformanceReport;
  error : option string
}.

Definition get_performance_level (s : Q) : string :=
  if Qle_bool (17#2) s then "Expert"
  else if Qle_bool 7 s then "Advanced"
  else if Qle_bool 5 s then "Intermediate"
  else if Qle_bool 3 s then "Beginner"
  else "Needs Improvement".

Definition entry_scores (q : QuestionEntry) : list Q :=
  match q_score q with Some s => [s] | None => [] end.

(** The [skill_breakdown] dictionary built in insertion order. *)
Fixpoint add_to_breakdown (bd : list (string * SkillData)) (skill : string) (sc : list Q)
  : list (string * SkillData) :=
  match bd with
  | [] => [(skill, mkSkillData sc 1)]
  | (k, d) :: bd' =>
      if String.eqb skill k
      then (k, mkSkillData (sd_scores d ++ sc)%list (S (sd_questions d))) :: bd'
      else (k, d) :: add_to_breakdown bd' skill sc
  end.

Definition build_breakdown (qs : list QuestionEntry) : list (string * SkillData) :=
  fold_left (fun bd q => add_to_breakdown bd (skill_of q) (entry_scores q)) qs [].

Definition all_scores (qs : list QuestionEntry) : list Q := flat_map entry_scores qs.

(** Python equality and hashing of JSON scalars, as used by [set(...)] and
    [list.count]; lists and objects are unhashable. *)
Definition hashable (v : jval) : bool :=
  match v with JArr _ | JObj _ => false | _ => true end.

Definition py_eqb (v w : jval) : bool :=
  match v, w with
  | JNull, JNull => true
  | JStr s, JStr t => String.eqb s t
  | _, _ =>
      match as_number v, as_number w with
      | Some x, Some y => Qeq_bool x y
      | _, _ => false
      end
  end.

Fixpoint jdedup (xs : list jval) : list jval :=
  match xs with
  | [] => []
  | x :: xs' => x :: filter (fun y => negb (py_eqb x y)) (jdedup xs')
  end.

Definition count_of (x : jval) (xs : list jval) : nat := List.length (filter (py_eqb x) xs).

(** [_generate_recommendations]; [inl]: [.lower()] raised on a non-string
    recurring improvement. *)
Definition generate_recommendations (overall : Q) (bd : list (string * SkillData))
    (imps : list jval) : string + list string :=
  let avg d := Agent.mean (sd_scores d) in
  let recs :=
    if negb (Qle_bool 5 overall)
    then ["Start with Excel basics: cell references, simple formulas, and basic functions";
          "Practice using SUM, AVERAGE, COUNT functions regularly"]
    else if negb (Qle_bool 7 overall)
    then ["Focus on intermediate Excel features like VLOOKUP and pivot tables";
          "Learn conditional formatting and data validation"]
    else ["Explore advanced Excel features like Power Query and Power Pivot";
          "Consider learning VBA for automation"] in
  let weak := filter (fun '(_, d) => negb (Qle_bool (overall - 1) (avg d))) bd in
  let skill_rec (skill : string) : list string :=
    let l := lower skill in
    if contains "lookup" l then ["Practice VLOOKUP, INDEX/MATCH functions with different datasets"]
    else if contains "pivot" l then ["Create pivot tables with various data sources and analyze trends"]
    else if contains "chart" l then ["Learn different chart types and when to use each effectively"]
    else if contains "formula" l then ["Study array formulas and nested function combinations"]
    else [] in
  let recs := (recs ++ flat_map (fun '(s, _) => skill_rec s) weak)%list in
  let common := filter (fun imp => Nat.ltb 1 (count_of imp imps)) imps in
  let imp_rec (imp : jval) : string + list string :=
    match imp with
    | JStr s =>
        let l := lower s in
        if contains "example" l then inr ["Practice explaining Excel concepts with real-world examples"]
        else if contains "detail" l then inr ["Work on providing more comprehensive explanations"]
        else inr []
    | _ => inl "object has no attribute 'lower'"
    end in
  let fix go (xs : list jval) (acc : list string) : string + list string :=
    match xs with
    | [] => inr acc
    | x :: xs' => match imp_rec x with
                  | inl e => inl e
                  | inr r => go xs' (acc ++ r)%list
                  end
    end in
  match go (firstn 3 common) recs with
  | inl e => inl e
  | inr recs => inr (dedup recs)
  end.

Definition skill_entry (d : SkillData) : SkillEntry :=
  {| average_score := round1 (Agent.mean (sd_scores d));
     questions_asked := sd_questions d;
     performance_level := get_performance_level (Agent.mean (sd_scores d)) |}.

(** [create_performance_report]: [history] is
    [interview_data.get('question_history')] ([None]: missing or [None]).
    [inl]: an exception escapes ([set] of unhashable entries, or from the
    recommendations). *)
Definition create_performance_report (history : option (list QuestionEntry))
  : string + ReportResult :=
  match history with
  | None | Some [] =>
      inr {| report := None; error := Some "No interview data available" |}
  | Some questions =>
      let overall := Agent.mean (all_scores questions) in
      let bd := build_breakdown questions in
      let all_strengths := flat_map q_strengths questions in
      let all_improvements := flat_map q_improvements questions in
      match generate_recommendations overall bd all_improvements with
      | inl e => inl e
      | inr recs =>
          if negb (forallb hashable all_strengths && forallb hashable all_improvements)
          then inl "unhashable type"
          else inr {| report := Some
                        {| overall_score := round1 overall;
                           report_level := get_performance_level overall;
                           total_questions := List.length questions;
                           questions_completed := List.length (all_scores questions);
                           skill_breakdown := map (fun '(k, d) => (k, skill_entry d)) bd;
                           strengths := jdedup all_strengths;
                           improvements := jdedup all_improvements;
                           recommendations := recs |};
                      error := None |}
      end
  end.

(** [generate_final_report] in [src/app.py]: the summary's question
    dictionaries as [create_performance_report] reads them (every one has
    its [skill_area] and [score] keys), then the report. *)
Definition summary_entries (sm : Agent.InterviewSummary) : list QuestionEntry :=
  map (fun q => {| q_skill_area := Some (Agent.skill_area q); q_score := Agent.score q;
                   q_strengths := Agent.strengths q; q_improvements := Agent.improvements q |})
    (Agent.s_question_history sm).

Definition final_report (a : Agent.InterviewAgent) : string + ReportResult :=
  create_performance_report (Some (summary_entries (Agent.get_interview_summary a))).

End Report.

(** * Properties *)

(** ** Generic facts: retries, clamping, rounding *)

Module PyFacts.

Lemma with_retries_3_spec {A} (body : nat -> option A) (fallback : A) :
  exists r, with_retries 3 body fallback = Some r /\
            (r = fallback \/ exists attempt, body attempt = Some r).
Proof.
  unfold with_retries; simpl.
  destruct (body 0%nat) eqn:E0; [eauto|].
  destruct (body 1%nat) eqn:E1; [eauto|].
  destruct (body 2%nat) eqn:E2; eauto.
Qed.

Lemma clamp_bounds (lo hi x : Q) : lo <= hi -> lo <= clamp lo hi x /\ clamp lo hi x <= hi.
Proof.
  intros H; unfold clamp; split.
  - apply Q.le_max_l.
  - apply Q.max_lub; [exact H | apply Q.le_min_l].
Qed.

Lemma round_half_even_bounds (lo hi : Z) (y : Q) :
  inject_Z lo <= y -> y <= inject_Z hi -> (lo <= round_half_even y <= hi)%Z.
Proof.
  intros Hlo Hhi. unfold round_half_even.
  assert (Hf1 : (lo <= Qfloor y)%Z).
  { rewrite <- (Qfloor_Z lo) at 1. apply Qfloor_resp_le; exact Hlo. }
  assert (Hf2 : (Qfloor y <= hi)%Z).
  { rewrite <- (Qfloor_Z hi). apply Qfloor_resp_le; exact Hhi. }
  destruct (Qle_bool (1#2) (y - inject_Z (Qfloor y))) eqn:E1; simpl.
  - apply Qle_bool_iff in E1.
    assert (Hlt : (Qfloor y < hi)%Z).
    { destruct (Z.lt_ge_cases (Qfloor y) hi) as [H|H]; [exact H|].
      exfalso. rewrite Zle_Qle in H. lra. }
    destruct (negb (Qle_bool _ (1#2))); [lia|].
    destruct (Z.even (Qfloor y)); lia.
  - lia.
Qed.

Lemma round1_bounds (lo hi : Z) (x : Q) :
  inject_Z lo <= x * 10 -> x * 10 <= inject_Z hi ->
  inject_Z lo / 10 <= round1 x /\ round1 x <= inject_Z hi / 10.
Proof.
  intros H1 H2. destruct (round_half_even_bounds lo hi (x * 10) H1 H2) as [L U].
  rewrite Zle_Qle in L, U. unfold round1, Qdiv.
  split; apply Qmult_le_compat_r; try assumption; apply Qle_bool_iff; reflexivity.
Qed.

(** A score clamped to [1, 10] and rounded stays in [1, 10]. *)
Lemma round1_clamp_1_10 (x : Q) : 1 <= round1 (clamp 1 10 x) /\ round1 (clamp 1 10 x) <= 10.
Proof.
  destruct (clamp_bounds 1 10 x) as [L U]; [lra|].
  destruct (round1_bounds 10 100 (clamp 1 10 x)) as [L' U'];
    [unfold inject_Z; lra | unfold inject_Z; lra |].
  assert (E1 : inject_Z 10 / 10 == 1) by reflexivity.
  assert (E2 : inject_Z 100 / 10 == 10) by reflexivity.
  rewrite E1 in L'. rewrite E2 in U'. split; assumption.
Qed.

End PyFacts.

(** ** The evaluator *)

Module EvaluationFacts.
Import Evaluation PyFacts.

Ltac qcheck :=
  repeat split;
  first [ apply Qeq_bool_iff | apply Qle_bool_iff ];
  vm_compute; reflexivity.

Lemma llm_result_in_range (ds di : string) (resp : option jobj) (r : EvaluationResult) :
  llm_result ds di resp = Some r -> 0 <= score r /\ score r <= 10.
Proof.
  unfold llm_result. destruct resp as [d|]; [|discriminate].
  destruct (negb (validate_evaluation_response d)); [discriminate|].
  cbv zeta.
  repeat match goal with
         | |- context [match ?x with _ => _ end] => destruct x
         end; try discriminate.
  all: intro H; injection H as <-; simpl; apply clamp_bounds; lra.
Qed.

Lemma found_terms_le_8 (answer : string) : (List.length (found_terms answer) <= 8)%nat.
Proof. unfold found_terms. apply (filter_length_le _ excel_terms). Qed.

Lemma basic_text_in_range (answer : string) :
  0 <= score (create_basic_text_evaluation answer) /\ score (create_basic_text_evaluation answer) <= 10.
Proof.
  unfold create_basic_text_evaluation, basic_text_raw_score; cbn [score]; cbv zeta.
  match goal with
  | |- context [round1 (clamp 1 10 ?x)] => destruct (round1_clamp_1_10 x)
  end.
  split; lra.
Qed.

Lemma analysis_based_score (a : Analysis) :
  score (analysis_based_evaluation a) = round1 (analysis_raw_score a).
Proof.
  unfold analysis_based_evaluation; cbv zeta.
  destruct (negb (file_readable a)); destruct (data_present a);
    destruct (formulas a); try destruct (filter _ _);
    destruct (Nat.ltb 0 (charts_count a)); destruct (errors a); reflexivity.
Qed.

Lemma analysis_based_in_range (a : Analysis) :
  0 <= score (analysis_based_evaluation a) /\ score (analysis_based_evaluation a) <= 10.
Proof.
  rewrite analysis_based_score. unfold analysis_raw_score; cbv zeta.
  match goal with
  | |- context [round1 (clamp 1 10 ?x)] => destruct (round1_clamp_1_10 x)
  end; split; lra.
Qed.

Lemma chars_app (s t : string) :
  list_ascii_of_string (s ++ t) = (list_ascii_of_string s ++ list_ascii_of_string t)%list.
Proof. induction s as [|c s IH]; simpl; [reflexivity | rewrite IH; reflexivity]. Qed.

(** Once a field has begun, the scan either raises or yields at least
    that field. *)
Lemma format_fields_in_field (s : list ascii) (m : fmode) :
  m <> FLit ->
  format_fields m s = None \/ exists v vs, format_fields m s = Some (v :: vs).
Proof.
  revert m; induction s as [|c s IH]; intros m Hm.
  - destruct m; [congruence | left; reflexivity ..].
  - destruct m as [|nm|nm|nm|nm|nm k]; [congruence | | | | |]; cbn [format_fields];
      repeat match goal with
             | |- context [if Ascii.eqb ?x ?y then _ else _] => destruct (Ascii.eqb x y)
             | |- context [match ?k with O => _ | S _ => _ end] => destruct k
             end;
      first [ left; reflexivity
            | apply IH; discriminate
            | destruct (format_fields FLit s) as [l|]; simpl;
                [right; eexists; eexists; reflexivity | left; reflexivity] ].
Qed.

(** One step of the scan over literal text. *)
Lemma format_fields_plain (c : ascii) (s : list ascii) :
  c <> "{"%char -> c <> "}"%char -> format_fields FLit (c :: s) = format_fields FLit s.
Proof.
  intros H1 H2. cbn [format_fields].
  destruct (Ascii.eqb_spec c "{"%char); [congruence|].
  destruct (Ascii.eqb_spec c "}"%char); [congruence|]. reflexivity.
Qed.

Lemma format_fields_open_open (s : list ascii) :
  format_fields FLit ("{"%char :: "{"%char :: s) = format_fields FLit s.
Proof. reflexivity. Qed.

Lemma format_fields_open (d : ascii) (s : list ascii) :
  d <> "{"%char -> format_fields FLit ("{"%char :: d :: s) = format_fields (FName "") (d :: s).
Proof.
  intros H. cbn [format_fields].
  destruct (Ascii.eqb_spec d "{"%char); [congruence | reflexivity].
Qed.

Lemma format_fields_close_close (s : list ascii) :
  format_fields FLit ("}"%char :: "}"%char :: s) = format_fields FLit s.
Proof. reflexivity. Qed.

Lemma format_fields_close (d : ascii) (s : list ascii) :
  d <> "}"%char -> format_fields FLit ("}"%char :: d :: s) = None.
Proof.
  intros H. cbn [format_fields].
  destruct (Ascii.eqb_spec d "}"%char); [congruence | reflexivity].
Qed.

(** Literal text before a non-brace character: the scan of the whole
    raises or yields a field whenever the scan of what follows does. *)
Lemma format_fields_lit_prefix (n : nat) (pre : list ascii) (x : ascii) (rest : list ascii) :
  (List.length pre <= n)%nat -> x <> "{"%char -> x <> "}"%char ->
  (format_fields FLit rest = None \/ exists v vs, format_fields FLit rest = Some (v :: vs)) ->
  format_fields FLit ((pre ++ x :: rest)%list) = None \/
  exists v vs, format_fields FLit ((pre ++ x :: rest)%list) = Some (v :: vs).
Proof.
  intros Hn Hx1 Hx2 Hr. revert pre Hn. induction n as [|n IH]; intros pre Hn.
  - destruct pre; [|simpl in Hn; lia]. cbn [app].
    rewrite format_fields_plain by assumption. exact Hr.
  - destruct pre as [|c p]; cbn [app].
    + rewrite format_fields_plain by assumption. exact Hr.
    + simpl in Hn.
      destruct (Ascii.eqb_spec c "{"%char) as [->|Hc1].
      * destruct p as [|d p']; cbn [app].
        -- rewrite format_fields_open by assumption.
           apply format_fields_in_field; discriminate.
        -- destruct (Ascii.eqb_spec d "{"%char) as [->|Hd].
           ++ rewrite format_fields_open_open. apply IH. simpl in Hn. lia.
           ++ rewrite format_fields_open by assumption.
              apply format_fields_in_field; discriminate.
      * destruct (Ascii.eqb_spec c "}"%char) as [->|Hc2].
        -- destruct p as [|d p']; cbn [app].
           ++ rewrite format_fields_close by assumption. left; reflexivity.
           ++ destruct (Ascii.eqb_spec d "}"%char) as [->|Hd].
              ** rewrite format_fields_close_close. apply IH. simpl in Hn. lia.
              ** rewrite format_fields_close by assumption. left; reflexivity.
        -- rewrite format_fields_plain by assumption. apply IH. lia.
Qed.

(** A prompt whose [- Data summary: ] line prints a dict raises in the
    template, whatever text comes before and after. *)
Lemma template_raises_at_summary (pre rest post : string) (c : ascii) :
  rest = String "{" (String c post) -> c <> "{"%char ->
  template_raises (pre ++ "- Data summary: " ++ rest) = true.
Proof.
  intros -> Hc. unfold template_raises. rewrite chars_app.
  assert (Hr : format_fields FLit (list_ascii_of_string (" Data summary: " ++ String "{" (String c post)))
                 = None \/
               exists v vs, format_fields FLit
                 (list_ascii_of_string (" Data summary: " ++ String "{" (String c post)))
                 = Some (v :: vs)).
  { cbn [list_ascii_of_string append].
    repeat (rewrite format_fields_plain by discriminate).
    rewrite format_fields_open by exact Hc.
    apply format_fields_in_field; discriminate. }
  change (list_ascii_of_string ("- Data summary: " ++ String "{" (String c post)))
    with ("-"%char :: list_ascii_of_string (" Data summary: " ++ String "{" (String c post))).
  destruct (format_fields_lit_prefix (List.length (list_ascii_of_string pre))
              (list_ascii_of_string pre) "-"%char
              (list_ascii_of_string (" Data summary: " ++ String "{" (String c post)))
              (le_n _) ltac:(discriminate) ltac:(discriminate) Hr) as [E | (v & vs & E)];
    rewrite E; reflexivity.
Qed.

(** The data summary is a dict, so every prompt of [_llm_excel_evaluation]
    raises in the template. *)
Lemma excel_template_raises (task summary_tail : string) (a : Analysis) :
  template_raises (excel_prompt task summary_tail a) = true.
Proof.
  unfold excel_prompt, data_summary_str.
  destruct (data_summary a) as [[rows cols]|].
  - eapply template_raises_at_summary; [reflexivity | discriminate].
  - eapply template_raises_at_summary; [reflexivity | discriminate].
Qed.

Lemma llm_excel_evaluation_none (task summary_tail : string) (a : Analysis) (resp : option jobj) :
  llm_excel_evaluation task summary_tail a resp = None.
Proof. unfold llm_excel_evaluation. rewrite excel_template_raises. reflexivity. Qed.

Lemma with_retries_3_none {A} (body : nat -> option A) (fallback : A) :
  (forall attempt, body attempt = None) -> with_retries 3 body fallback = Some fallback.
Proof. intros H. unfold with_retries; simpl. rewrite !H. reflexivity. Qed.

(** Every upload is scored by the analysis heuristic. *)
Lemma evaluate_excel_upload_analysis (task summary_tail : string) (load : string + Workbook)
    (read : string + DataFrame) (llm : list (option jobj)) :
  evaluate_excel_upload task summary_tail load read llm =
    Some (analysis_based_evaluation (comprehensive_excel_analysis load read)).
Proof.
  unfold evaluate_excel_upload, run_analysis; cbv beta iota.
  apply with_retries_3_none. intros attempt. apply llm_excel_evaluation_none.
Qed.

(** C9: whatever path the evaluator takes (model scoring clamped to
    [0, 10], the text or analysis heuristics clamped to [1, 10], or the
    fixed 2.0 of the file-format handler), it returns a result whose score
    is in [0, 10]. *)
Theorem evaluation_score_in_range :
  (forall (answer : string) (llm : list (option jobj)),
      score_in_range (evaluate_text_answer answer llm)) /\
  (forall (task summary_tail : string) (load : string + Workbook) (read : string + DataFrame)
          (llm : list (option jobj)),
      score_in_range (evaluate_excel_upload task summary_tail load read llm)) /\
  (forall e : string, 0 <= score (excel_error_result e) /\ score (excel_error_result e) <= 10).
Proof.
  split; [|split].
  - intros answer llm. unfold evaluate_text_answer.
    destruct (with_retries_3_spec (fun attempt => text_llm_attempt (nth attempt llm None))
                (create_basic_text_evaluation answer)) as [r [-> [-> | [i Hi]]]]; simpl.
    + apply basic_text_in_range.
    + exact (llm_result_in_range _ _ _ _ Hi).
  - intros task summary_tail load read llm. rewrite evaluate_excel_upload_analysis.
    apply analysis_based_in_range.
  - intros e; simpl; split; lra.
Qed.

(** C6 (as stated: fewer than 10 words gives at most 4.0): refuted.  The
    four-word answer "excel formula cell data" finds four terms, so the
    heuristic gives 5.0 - 2.0 + 1.2 = 4.2. *)
Lemma short_answer_scores_above_4 :
  (split_len "excel formula cell data" < 10)%nat /\
  ~ (score (create_basic_text_evaluation "excel formula cell data") <= 4).
Proof.
  split.
  - apply Nat.ltb_lt; vm_compute; reflexivity.
  - intro H; apply Qle_bool_iff in H; vm_compute in H; discriminate H.
Qed.

(** C6 (amended): for an answer of fewer than 10 words the heuristic text
    score is exactly 3.0 plus 0.3 per distinct keyword found, the bonus
    capped at 2.0; it therefore lies in [3.0, 5.0], inside the [1, 10]
    clamp. *)
Theorem short_answer_heuristic_score (answer : string) :
  (split_len answer < 10)%nat ->
  score (create_basic_text_evaluation answer)
    == 3 + Qmin 2 (inject_Z (Z.of_nat (List.length (found_terms answer))) * (3#10)) /\
  3 <= score (create_basic_text_evaluation answer) /\
  score (create_basic_text_evaluation answer) <= 5.
Proof.
  intros H.
  unfold create_basic_text_evaluation, basic_text_raw_score; cbn [score]; cbv zeta.
  assert (E50 : Nat.leb 50 (split_len answer) = false) by (apply Nat.leb_gt; lia).
  assert (E25 : Nat.leb 25 (split_len answer) = false) by (apply Nat.leb_gt; lia).
  assert (E10 : Nat.ltb (split_len answer) 10 = true) by (apply Nat.ltb_lt; lia).
  rewrite E50, E25, E10.
  pose proof (found_terms_le_8 answer) as Hk.
  generalize dependent (List.length (found_terms answer)). intros k Hk.
  do 9 (destruct k as [|k]; [qcheck|]).
  lia.
Qed.

Lemma short_answer_heuristic_score_witness :
  (split_len "excel formula cell data" < 10)%nat /\
  score (create_basic_text_evaluation "excel formula cell data") == 3 + (6#5).
Proof.
  assert (H : (split_len "excel formula cell data" < 10)%nat)
    by (apply Nat.ltb_lt; vm_compute; reflexivity).
  split; [exact H|].
  destruct (short_answer_heuristic_score "excel formula cell data" H) as [E _].
  rewrite E. apply Qeq_bool_iff. vm_compute. reflexivity.
Defined.



End EvaluationFacts.

(** ** The interview agent *)

Module AgentFacts.
Import Agent PyFacts.

Lemma with_retries_3_all_fail {A} (body : nat -> option A) (fallback : A) :
  (forall attempt, (attempt < 3)%nat -> body attempt = None) ->
  with_retries 3 body fallback = Some fallback.
Proof.
  intros H. unfold with_retries; simpl.
  rewrite (H 0%nat), (H 1%nat), (H 2%nat) by lia. reflexivity.
Qed.

Lemma evaluate_response_some (outcomes : list (option Evaluation.EvaluationResult)) :
  exists ev, evaluate_response outcomes = Some ev.
Proof.
  unfold evaluate_response.
  destruct (with_retries_3_spec (fun attempt => option_map to_eval_dict (nth attempt outcomes None))
              evaluation_error_dict) as [ev [E _]].
  eauto.
Qed.

Lemma generate_spec (a : InterviewAgent) (llm : list (option jobj)) :
  exists q d,
    generate_next_question a llm =
      ({| state := set_history (question_history (state a) ++ [q])%list
                     (set_count (question_count (state a) + 1) (state a));
          tested_skills := set_add (skill_area q) (tested_skills a) |}, Some d) /\
    ((q, d) = basic_question (set_count (question_count (state a) + 1) (state a))
                (available_skills (tested_skills a)) \/
     exists attempt,
       question_attempt (set_count (question_count (state a) + 1) (state a))
         (available_skills (tested_skills a)) (nth attempt llm None) = Some (q, d)).
Proof.
  unfold generate_next_question.
  destruct (with_retries_3_spec
              (fun attempt => question_attempt (set_count (question_count (state a) + 1) (state a))
                                (available_skills (tested_skills a)) (nth attempt llm None))
              (basic_question (set_count (question_count (state a) + 1) (state a))
                 (available_skills (tested_skills a)))) as [[q d] [E H]].
  rewrite E. exists q, d. split; [reflexivity | exact H].
Qed.

Lemma process_response_fst (a : InterviewAgent) (i : string) (f : option (list Byte.byte))
    (env : TurnEnv) :
  fst (process_response a i f env) =
  match current_phase (state a) with
  | INTRODUCTION => fst (handle_introduction a i env)
  | QUESTIONING => fst (handle_questioning_phase a i f env)
  | WRAP_UP => fst (handle_wrap_up a)
  | COMPLETED => a
  end.
Proof.
  unfold process_response.
  destruct (current_phase (state a));
    [ destruct (handle_introduction a i env) as [a' [e|r]]
    | destruct (handle_questioning_phase a i f env) as [a' [e|r]]
    | destruct (handle_wrap_up a) as [a' [e|r]]
    | ]; reflexivity.
Qed.

Lemma handle_introduction_fst (a : InterviewAgent) (i : string) (env : TurnEnv) :
  fst (handle_introduction a i env) =
  fst (generate_next_question (with_state a (set_phase QUESTIONING (set_name (strip i) (state a))))
         (gen_llm env)).
Proof.
  unfold handle_introduction.
  destruct (generate_next_question _ _); reflexivity.
Qed.

Lemma questioning_continue_fst (a : InterviewAgent) (ev : option EvalDict) (env : TurnEnv) :
  fst (questioning_continue a ev env) =
  if Z.leb (max_questions (state a)) (question_count (state a))
  then fst (handle_wrap_up (with_state a (set_phase WRAP_UP (state a))))
  else fst (generate_next_question a (gen_llm env)).
Proof.
  unfold questioning_continue.
  destruct (Z.leb _ _); [reflexivity|].
  destruct (generate_next_question _ _); reflexivity.
Qed.

Lemma last_map_app {A} (h : list A) (q : A) : last (map Some (h ++ [q])%list) None = Some q.
Proof. rewrite map_app. simpl. apply last_last. Qed.

Lemma set_last_app {A} (h : list A) (q x : A) : set_last x (h ++ [q])%list = (h ++ [x])%list.
Proof. unfold set_last. rewrite removelast_last. reflexivity. Qed.

Lemma handle_questioning_fst (a : InterviewAgent) (i : string) (f : option (list Byte.byte))
    (env : TurnEnv) (h : list QuestionHistory) (q : QuestionHistory) :
  question_history (state a) = (h ++ [q])%list ->
  exists ev,
    evaluate_response (eval_outcomes env) = Some ev /\
    fst (handle_questioning_phase a i f env) =
    fst (questioning_continue
           (with_state a
              (set_difficulty (adapt_difficulty (e_score ev) (current_difficulty (state a)))
                 (set_history (h ++ [record_evaluation ev (record_answer i f q)])%list (state a))))
           (Some ev) env).
Proof.
  intros Hh. destruct (evaluate_response_some (eval_outcomes env)) as [ev Hev].
  exists ev. split; [exact Hev|].
  unfold handle_questioning_phase. rewrite Hh, last_map_app, Hev.
  simpl. rewrite !set_last_app. reflexivity.
Qed.

(** *** Difficulty *)

Lemma adapt_difficulty_range (s : Q) (d : Z) :
  (1 <= d <= 5)%Z -> (1 <= adapt_difficulty s d <= 5)%Z.
Proof.
  intros H. unfold adapt_difficulty.
  destruct (Qle_bool (17#2) s); [lia|]. destruct (Qle_bool s 4); lia.
Qed.

Lemma generate_difficulty (a : InterviewAgent) (llm : list (option jobj)) :
  current_difficulty (state (fst (generate_next_question a llm))) = current_difficulty (state a).
Proof. destruct (generate_spec a llm) as (q & d & E & _). rewrite E. reflexivity. Qed.

Lemma questioning_continue_difficulty (a : InterviewAgent) (ev : option EvalDict) (env : TurnEnv) :
  current_difficulty (state (fst (questioning_continue a ev env))) = current_difficulty (state a).
Proof.
  rewrite questioning_continue_fst.
  destruct (Z.leb _ _); [reflexivity | apply generate_difficulty].
Qed.

Lemma history_cases (h : list QuestionHistory) :
  h = [] \/ exists h' q, h = (h' ++ [q])%list.
Proof.
  destruct h as [|x l]; [left; reflexivity | right].
  destruct (exists_last (l := x :: l) ltac:(discriminate)) as [h' [q E]]. eauto.
Qed.

Lemma process_response_difficulty (a : InterviewAgent) (i : string) (f : option (list Byte.byte))
    (env : TurnEnv) :
  current_difficulty (state (fst (process_response a i f env))) =
  match current_phase (state a), last (map Some (question_history (state a))) None,
        evaluate_response (eval_outcomes env) with
  | QUESTIONING, Some _, Some ev => adapt_difficulty (e_score ev) (current_difficulty (state a))
  | _, _, _ => current_difficulty (state a)
  end.
Proof.
  rewrite process_response_fst.
  destruct (current_phase (state a)) eqn:Ep.
  - rewrite handle_introduction_fst, generate_difficulty. reflexivity.
  - destruct (history_cases (question_history (state a))) as [Eh | (h & q & Eh)].
    + unfold handle_questioning_phase. rewrite Eh. simpl.
      rewrite questioning_continue_difficulty. reflexivity.
    + destruct (handle_questioning_fst a i f env h q Eh) as (ev & Hev & E).
      rewrite E, questioning_continue_difficulty, Eh, last_map_app, Hev. reflexivity.
  - reflexivity.
  - reflexivity.
Qed.

Lemma run_ops_difficulty_range (ops : list Op) (a : InterviewAgent) :
  (1 <= current_difficulty (state a) <= 5)%Z ->
  (1 <= current_difficulty (state (fold_left apply_op ops a)) <= 5)%Z.
Proof.
  revert a; induction ops as [|op ops IH]; intros a H; simpl; [exact H|].
  apply IH. destruct op as [now | i f env]; simpl.
  - lia.
  - rewrite process_response_difficulty.
    destruct (current_phase (state a)), (last (map Some (question_history (state a))) None),
      (evaluate_response (eval_outcomes env));
      try apply adapt_difficulty_range; assumption.
Qed.

(** C4: the difficulty of every agent reachable from its creation stays in
    [1, 5]; a turn changes it only when it scores an answer (phase
    Questioning with a current question), and then by [_adapt_difficulty]:
    +1 capped at 5 for a score of at least 8.5, -1 floored at 1 for a score
    of at most 4.0, unchanged in between.  Question generation never
    changes it; [start_interview] begins a new session at difficulty 2. *)
Theorem difficulty_adaptation :
  (forall (now : string) (ops : list Op),
      (1 <= current_difficulty (state (run_ops now ops)) <= 5)%Z) /\
  (forall (a : InterviewAgent) (i : string) (f : option (list Byte.byte)) (env : TurnEnv),
      current_difficulty (state (fst (process_response a i f env))) =
      match current_phase (state a), last (map Some (question_history (state a))) None,
            evaluate_response (eval_outcomes env) with
      | QUESTIONING, Some _, Some ev => adapt_difficulty (e_score ev) (current_difficulty (state a))
      | _, _, _ => current_difficulty (state a)
      end) /\
  (forall (a : InterviewAgent) (llm : list (option jobj)),
      current_difficulty (state (fst (generate_next_question a llm))) = current_difficulty (state a)) /\
  (forall (a : InterviewAgent) (now : string),
      current_difficulty (state (fst (start_interview a now))) = 2%Z) /\
  (forall (s : Q) (d : Z), (1 <= d <= 5)%Z ->
      (1 <= adapt_difficulty s d <= 5)%Z /\
      ((17#2) <= s -> adapt_difficulty s d = Z.min 5 (d + 1)) /\
      (s <= 4 -> adapt_difficulty s d = Z.max 1 (d - 1)) /\
      (4 < s -> s < (17#2) -> adapt_difficulty s d = d)).
Proof.
  split; [|split; [|split; [|split]]].
  - intros now ops. apply run_ops_difficulty_range. simpl. lia.
  - apply process_response_difficulty.
  - apply generate_difficulty.
  - reflexivity.
  - intros s d Hd. split; [apply adapt_difficulty_range; exact Hd|].
    unfold adapt_difficulty. split; [|split].
    + intros Hs. apply Qle_bool_iff in Hs. rewrite Hs. reflexivity.
    + intros Hs. destruct (Qle_bool (17#2) s) eqn:E.
      * apply Qle_bool_iff in E. lra.
      * apply Qle_bool_iff in Hs. rewrite Hs. reflexivity.
    + intros H1 H2. destruct (Qle_bool (17#2) s) eqn:E.
      * apply Qle_bool_iff in E. lra.
      * destruct (Qle_bool s 4) eqn:E'; [apply Qle_bool_iff in E'; lra | reflexivity].
Qed.

Lemma difficulty_adaptation_witness :
  (1 <= 2 <= 5)%Z /\ (17#2) <= 9 /\ adapt_difficulty 9 2 = 3%Z.
Proof.
  assert (H : (1 <= 2 <= 5)%Z) by lia.
  assert (Hs : (17#2) <= 9) by (apply Qle_bool_iff; reflexivity).
  split; [exact H|]. split; [exact Hs|].
  exact (proj1 (proj2 (proj2 (proj2 (proj2 (proj2 difficulty_adaptation))) 9 2%Z H)) Hs).
Defined.

(** *** Question generation *)

Lemma lookup_app (k : string) (d e : jobj) :
  lookup k (d ++ e)%list = match lookup k d with Some v => Some v | None => lookup k e end.
Proof.
  induction d as [|[k' v'] d IH]; simpl; [reflexivity|].
  destruct (String.eqb k k'); [reflexivity | exact IH].
Qed.

Lemma lookup_setdefault_other (k k' : string) (v : jval) (d : jobj) :
  k <> k' -> lookup k (setdefault k' v d) = lookup k d.
Proof.
  intros Hne. unfold setdefault. destruct (lookup k' d); [reflexivity|].
  rewrite lookup_app. destruct (lookup k d); [reflexivity|]. simpl.
  apply String.eqb_neq in Hne. rewrite Hne. reflexivity.
Qed.

Lemma lookup_set_key_other (k k' : string) (v : jval) (d : jobj) :
  k <> k' -> lookup k (set_key k' v d) = lookup k d.
Proof.
  intros Hne. induction d as [|[k'' v''] d IH]; simpl.
  - apply String.eqb_neq in Hne. rewrite Hne. reflexivity.
  - destruct (String.eqb k' k'') eqn:E; simpl.
    + apply String.eqb_eq in E. subst k''.
      apply String.eqb_neq in Hne. rewrite Hne. reflexivity.
    + destruct (String.eqb k k''); [reflexivity | exact IH].
Qed.

Lemma lookup_set_key_same (k : string) (v : jval) (d : jobj) :
  lookup k (set_key k v d) = Some v.
Proof.
  induction d as [|[k' v'] d IH]; simpl.
  - rewrite String.eqb_refl. reflexivity.
  - destruct (String.eqb k k') eqn:E; simpl.
    + rewrite E. reflexivity.
    + rewrite E. exact IH.
Qed.

Lemma mem_In (x : string) (xs : list string) : mem x xs = true <-> In x xs.
Proof.
  unfold mem. rewrite existsb_exists. split.
  - intros [y [Hy E]]. apply String.eqb_eq in E. subst y. exact Hy.
  - intros Hx. exists x. split; [exact Hx | apply String.eqb_refl].
Qed.

Lemma jstr_in_mem (v : option jval) (xs : list string) :
  jstr_in v xs = true -> In (jstr_of v) xs.
Proof.
  destruct v as [[]|]; simpl; try discriminate. intros H. apply mem_In. exact H.
Qed.

(** What a successful attempt returns: the entry numbered with the
    (incremented) count, the model's text, and the type and skill area
    coerced as in the source. *)
Lemma question_attempt_spec (st : InterviewState) (av : list string) (d0 : jobj) :
  match question_attempt st av (Some d0) with
  | Some (q, _) =>
      question_id q = question_count st /\
      lookup "question_text" d0 = Some (question_text q) /\
      truthy (question_text q) = true /\
      question_type q = (if jstr_in (lookup "question_type" d0) valid_types
                         then jstr_of (lookup "question_type" d0) else "text") /\
      skill_area q = (if jstr_in (lookup "skill_area" d0) av
                      then jstr_of (lookup "skill_area" d0) else hd "" av) /\
      av <> []
  | None => True
  end.
Proof.
  unfold question_attempt.
  destruct (forallb (field_present d0) required_fields) eqn:Hreq; simpl; [|exact I].
  unfold required_fields in Hreq; simpl in Hreq.
  unfold field_present at 1 in Hreq.
  destruct (lookup "question_text" d0) as [txt|] eqn:Etxt; [|discriminate].
  apply andb_prop in Hreq as [Htxt _].
  set (d1 := if jstr_in (lookup "question_type" d0) valid_types then d0
             else set_key "question_type" (JStr "text") d0).
  assert (E1 : lookup "skill_area" d1 = lookup "skill_area" d0).
  { unfold d1. destruct (jstr_in _ _); [reflexivity|].
    apply lookup_set_key_other; discriminate. }
  assert (E2 : lookup "question_text" d1 = Some txt).
  { unfold d1. destruct (jstr_in _ _); [exact Etxt|].
    rewrite lookup_set_key_other by discriminate. exact Etxt. }
  assert (E3 : jstr_of (lookup "question_type" d1) =
               if jstr_in (lookup "question_type" d0) valid_types
               then jstr_of (lookup "question_type" d0) else "text").
  { unfold d1. destruct (jstr_in _ _); [reflexivity|].
    rewrite lookup_set_key_same. reflexivity. }
  clearbody d1.
  rewrite E1. destruct (jstr_in (lookup "skill_area" d0) av) eqn:Esk.
  - cbv zeta. simpl. rewrite !lookup_setdefault_other by discriminate.
    rewrite E2, E3, E1.
    repeat split; try assumption; try reflexivity.
    apply jstr_in_mem in Esk. intros ->. exact Esk.
  - destruct av as [|first av']; [exact I|]. cbv zeta. simpl.
    rewrite !lookup_setdefault_other by discriminate.
    rewrite lookup_set_key_same, !lookup_set_key_other by discriminate.
    rewrite E2, E3.
    repeat split; try assumption; try reflexivity. discriminate.
Qed.

Lemma available_skills_nonempty (tested : list string) : available_skills tested <> [].
Proof.
  unfold available_skills.
  destruct (filter _ skill_areas); discriminate.
Qed.

Lemma hd_In (av : list string) : av <> [] -> In (hd "" av) av.
Proof. destruct av as [|x av]; [contradiction | intros _; left; reflexivity]. Qed.

(** C7: question generation always returns a question dictionary and
    appends one entry whose text is truthy (non-empty), whose type is one
    of [text], [excel_upload], [scenario] (the model's type if valid,
    otherwise [text]), and whose skill area is one of the skills offered
    at this call (the model's skill if offered, otherwise the first offered
    one); when all three attempts fail the canned question is used, of type
    [text] with difficulty [max(1, min(3, current_difficulty))] in [1, 3]. *)
Theorem generated_question_valid :
  (forall (a : InterviewAgent) (llm : list (option jobj)),
     exists q d,
       generate_next_question a llm =
         ({| state := set_history (question_history (state a) ++ [q])%list
                        (set_count (question_count (state a) + 1) (state a));
             tested_skills := set_add (skill_area q) (tested_skills a) |}, Some d) /\
       question_id q = (question_count (state a) + 1)%Z /\
       truthy (question_text q) = true /\
       In (question_type q) valid_types /\
       In (skill_area q) (available_skills (tested_skills a))) /\
  (forall (st : InterviewState) (av : list string) (d0 : jobj) (q : QuestionHistory) (d : jobj),
     question_attempt st av (Some d0) = Some (q, d) ->
     question_type q = (if jstr_in (lookup "question_type" d0) valid_types
                        then jstr_of (lookup "question_type" d0) else "text") /\
     skill_area q = (if jstr_in (lookup "skill_area" d0) av
                     then jstr_of (lookup "skill_area" d0) else hd "" av)) /\
  (forall (a : InterviewAgent) (llm : list (option jobj)),
     (forall attempt, (attempt < 3)%nat ->
        question_attempt (set_count (question_count (state a) + 1) (state a))
          (available_skills (tested_skills a)) (nth attempt llm None) = None) ->
     generate_next_question a llm =
       (let st := set_count (question_count (state a) + 1) (state a) in
        let '(q, d) := basic_question st (available_skills (tested_skills a)) in
        ({| state := set_history (question_history (state a) ++ [q])%list st;
            tested_skills := set_add (skill_area q) (tested_skills a) |}, Some d))) /\
  (forall (st : InterviewState) (av : list string),
     let q := fst (basic_question st av) in
     question_text q = JStr basic_question_text /\
     question_type q = "text" /\
     difficulty_level q = JNum (inject_Z (Z.max 1 (Z.min 3 (current_difficulty st)))) /\
     (1 <= Z.max 1 (Z.min 3 (current_difficulty st)) <= 3)%Z /\
     skill_area q = match av with first :: _ => first
                    | [] => "Basic Functions (SUM, AVERAGE, COUNT)" end).
Proof.
  split; [|split; [|split]].
  - intros a llm.
    destruct (generate_spec a llm) as (q & d & E & H).
    exists q, d. split; [exact E|].
    pose proof (available_skills_nonempty (tested_skills a)) as Hne.
    destruct H as [H | (attempt & H)].
    + unfold basic_question in H. injection H as Hq Hd. subst q. simpl.
      split; [reflexivity|]. split; [reflexivity|]. split; [simpl; auto|].
      destruct (available_skills (tested_skills a)) as [|x l]; [contradiction | left; reflexivity].
    + destruct (nth attempt llm None) as [d0|]; [|discriminate].
      pose proof (question_attempt_spec (set_count (question_count (state a) + 1) (state a))
                    (available_skills (tested_skills a)) d0) as Hs.
      rewrite H in Hs. destruct Hs as (Hid & _ & Htxt & Hty & Hsk & _).
      split; [exact Hid|]. split; [exact Htxt|]. split.
      * rewrite Hty. destruct (jstr_in (lookup "question_type" d0) valid_types) eqn:Ev.
        -- apply jstr_in_mem. exact Ev.
        -- simpl; auto.
      * rewrite Hsk. destruct (jstr_in (lookup "skill_area" d0) _) eqn:Ev.
        -- apply jstr_in_mem. exact Ev.
        -- apply hd_In. exact Hne.
  - intros st av d0 q d H.
    pose proof (question_attempt_spec st av d0) as Hs. rewrite H in Hs.
    destruct Hs as (_ & _ & _ & Hty & Hsk & _). split; assumption.
  - intros a llm H. unfold generate_next_question.
    rewrite with_retries_3_all_fail by exact H.
    destruct (basic_question _ _); reflexivity.
  - intros st av. simpl. repeat split; try reflexivity; lia.
Qed.

Lemma generated_question_valid_witness :
  (forall attempt, (attempt < 3)%nat ->
     question_attempt (set_count (question_count (state (init_agent "20240101_000000")) + 1)
                         (state (init_agent "20240101_000000")))
       (available_skills (tested_skills (init_agent "20240101_000000")))
       (nth attempt [] None) = None) /\
  match question_attempt (new_state "20240101_000000") ["Charts and Visualization"]
          (Some [("question_text", JStr "Build a chart"); ("question_type", JStr "essay");
                 ("skill_area", JStr "Macros")]) with
  | Some (q, _) => question_type q = "text" /\ skill_area q = "Charts and Visualization"
  | None => False
  end /\
  generate_next_question (init_agent "20240101_000000") [] =
    (let a := init_agent "20240101_000000" in
     let st := set_count (question_count (state a) + 1) (state a) in
     let '(q, d) := basic_question st (available_skills (tested_skills a)) in
     ({| state := set_history (question_history (state a) ++ [q])%list st;
         tested_skills := set_add (skill_area q) (tested_skills a) |}, Some d)).
Proof.
  assert (H : forall attempt, (attempt < 3)%nat ->
     question_attempt (set_count (question_count (state (init_agent "20240101_000000")) + 1)
                         (state (init_agent "20240101_000000")))
       (available_skills (tested_skills (init_agent "20240101_000000")))
       (nth attempt [] None) = None).
  { intros [|n] _; reflexivity. }
  split; [exact H|]. split.
  - pose proof (proj1 (proj2 generated_question_valid) (new_state "20240101_000000")
                  ["Charts and Visualization"]
                  [("question_text", JStr "Build a chart"); ("question_type", JStr "essay");
                   ("skill_area", JStr "Macros")]) as Hc.
    destruct (question_attempt _ _ _) as [[q d]|] eqn:E.
    + destruct (Hc q d eq_refl) as [H1 H2]. rewrite H1, H2. split; reflexivity.
    + vm_compute in E. discriminate.
  - exact (proj1 (proj2 (proj2 generated_question_valid)) (init_agent "20240101_000000") [] H).
Defined.

(** *** Question count and wrap-up *)

Lemma question_attempt_unscored (st : InterviewState) (av : list string) (r : option jobj)
    (q : QuestionHistory) (d : jobj) :
  question_attempt st av r = Some (q, d) -> score q = None.
Proof.
  unfold question_attempt. destruct r as [d0|]; [|discriminate].
  destruct (negb _); [discriminate|].
  destruct (if jstr_in _ _ then _ else _) as [d1|]; [|discriminate].
  intros H. injection H as <- _. reflexivity.
Qed.

Lemma generate_unscored (a : InterviewAgent) (llm : list (option jobj)) :
  exists q d,
    generate_next_question a llm =
      ({| state := set_history (question_history (state a) ++ [q])%list
                     (set_count (question_count (state a) + 1) (state a));
          tested_skills := set_add (skill_area q) (tested_skills a) |}, Some d) /\
    score q = None.
Proof.
  destruct (generate_spec a llm) as (q & d & E & [H | (attempt & H)]);
    exists q, d; split; try exact E.
  - unfold basic_question in H. injection H as Hq _. subst q. reflexivity.
  - exact (question_attempt_unscored _ _ _ _ _ H).
Qed.

Lemma intro_awaiting (a : InterviewAgent) (now name : string) (f : option (list Byte.byte))
    (env : TurnEnv) :
  awaiting_answer (fst (process_response (fst (start_interview a now)) name f env)) 1.
Proof.
  rewrite process_response_fst. simpl. rewrite handle_introduction_fst.
  match goal with
  | |- awaiting_answer (fst (generate_next_question ?b ?l)) _ =>
      destruct (generate_unscored b l) as (q & d & E & Hq)
  end.
  rewrite E. unfold awaiting_answer; simpl.
  split; [reflexivity|]. split; [reflexivity|]. split; [reflexivity|].
  exists [], q. repeat split; auto.
Qed.

Lemma answered_record (ev : EvalDict) (q : QuestionHistory) : answered (record_evaluation ev q).
Proof. exists (e_score ev). reflexivity. Qed.

Lemma step_awaiting (a : InterviewAgent) (k : nat) (t : string * option (list Byte.byte) * TurnEnv) :
  awaiting_answer a k -> (k < 5)%nat -> awaiting_answer (respond a t) (S k).
Proof.
  destruct t as [[i f] env].
  intros (Hph & Hc & Hm & h & q & Eh & Hlen & Hall & Hq) Hk. simpl.
  rewrite process_response_fst, Hph.
  destruct (handle_questioning_fst a i f env h q Eh) as (ev & _ & E). rewrite E.
  rewrite questioning_continue_fst. simpl. rewrite Hm, Hc.
  replace (Z.leb 5 (Z.of_nat k)) with false by (symmetry; apply Z.leb_gt; lia).
  match goal with
  | |- awaiting_answer (fst (generate_next_question ?b ?l)) _ =>
      destruct (generate_unscored b l) as (q' & d & E' & Hq')
  end.
  rewrite E'. unfold awaiting_answer; simpl.
  split; [exact Hph|]. split; [rewrite Hc; lia|]. split; [exact Hm|].
  exists (h ++ [record_evaluation ev (record_answer i f q)])%list, q'.
  split; [reflexivity|]. split.
  - rewrite List.length_app. simpl. lia.
  - split; [|exact Hq']. apply Forall_app. split; [exact Hall|].
    constructor; [apply answered_record | constructor].
Qed.

Lemma fold_awaiting (turns : list (string * option (list Byte.byte) * TurnEnv)) :
  forall (a : InterviewAgent) (k : nat),
  awaiting_answer a k -> (k + List.length turns <= 5)%nat ->
  awaiting_answer (fold_left respond turns a) (k + List.length turns).
Proof.
  induction turns as [|t turns IH]; intros a k H Hk; simpl.
  - rewrite Nat.add_0_r. exact H.
  - simpl in Hk. replace (k + S (List.length turns))%nat with (S k + List.length turns)%nat by lia.
    apply IH; [apply step_awaiting; [exact H | lia] | lia].
Qed.

Lemma final_turn (a : InterviewAgent) (t : string * option (list Byte.byte) * TurnEnv) :
  awaiting_answer a 5 ->
  let a' := respond a t in
  current_phase (state a') = COMPLETED /\
  question_count (state a') = 5%Z /\
  max_questions (state a') = 5%Z /\
  List.length (question_history (state a')) = 5%nat /\
  Forall answered (question_history (state a')).
Proof.
  destruct t as [[i f] env].
  intros (Hph & Hc & Hm & h & q & Eh & Hlen & Hall & Hq). simpl.
  rewrite process_response_fst, Hph.
  destruct (handle_questioning_fst a i f env h q Eh) as (ev & _ & E). rewrite E.
  rewrite questioning_continue_fst. simpl. rewrite Hm, Hc. simpl.
  split; [reflexivity|]. split; [exact Hc|]. split; [exact Hm|]. split.
  - rewrite List.length_app. simpl. lia.
  - apply Forall_app. split; [exact Hall|].
    constructor; [apply answered_record | constructor].
Qed.

Lemma completed_fold (turns : list (string * option (list Byte.byte) * TurnEnv))
    (a : InterviewAgent) :
  current_phase (state a) = COMPLETED -> fold_left respond turns a = a.
Proof.
  revert a; induction turns as [|[[i f] env] turns IH]; intros a H; simpl; [reflexivity|].
  rewrite process_response_fst, H. apply IH. exact H.
Qed.

Lemma final_turn_wrap_up (a : InterviewAgent) (t : string * option (list Byte.byte) * TurnEnv) :
  awaiting_answer a 5 ->
  exists b, respond a t = fst (handle_wrap_up (with_state b (set_phase WRAP_UP (state b)))) /\
            question_count (state b) = 5%Z /\
            List.length (question_history (state b)) = 5%nat /\
            Forall answered (question_history (state b)).
Proof.
  destruct t as [[i f] env].
  intros (Hph & Hc & Hm & h & q & Eh & Hlen & Hall & Hq). simpl.
  rewrite process_response_fst, Hph.
  destruct (handle_questioning_fst a i f env h q Eh) as (ev & _ & E). rewrite E.
  exists (with_state a
            (set_difficulty (adapt_difficulty (e_score ev) (current_difficulty (state a)))
               (set_history (h ++ [record_evaluation ev (record_answer i f q)])%list (state a)))).
  rewrite questioning_continue_fst. simpl. rewrite Hm, Hc. simpl.
  split; [reflexivity|]. split; [reflexivity|]. split.
  - rewrite List.length_app. simpl. lia.
  - apply Forall_app. split; [exact Hall|].
    constructor; [apply answered_record | constructor].
Qed.

(** C3: every question generation increments [question_count] by exactly
    one and appends exactly one entry.  From [start_interview], the name
    turn asks question 1; after [j <= 4] further answers the agent is still
    in the questioning phase waiting for the answer to question [j + 1]
    (all earlier ones scored); the 5th answer ([question_count >= max_questions
    = 5]) moves the session to WrapUp and, in the same call, to Completed,
    with exactly 5 questions asked and answered; later turns change nothing. *)
Theorem question_count_and_wrap_up :
  (forall (a : InterviewAgent) (llm : list (option jobj)),
     question_count (state (fst (generate_next_question a llm))) = (question_count (state a) + 1)%Z /\
     List.length (question_history (state (fst (generate_next_question a llm)))) =
       S (List.length (question_history (state a)))) /\
  (forall (a : InterviewAgent) (now name : string) (f : option (list Byte.byte)) (env : TurnEnv)
          (turns : list (string * option (list Byte.byte) * TurnEnv)),
     (List.length turns <= 4)%nat ->
     awaiting_answer
       (fold_left respond turns (fst (process_response (fst (start_interview a now)) name f env)))
       (S (List.length turns))) /\
  (forall (a : InterviewAgent) (t : string * option (list Byte.byte) * TurnEnv),
     awaiting_answer a 5 ->
     exists b, respond a t = fst (handle_wrap_up (with_state b (set_phase WRAP_UP (state b)))) /\
               question_count (state b) = 5%Z /\
               List.length (question_history (state b)) = 5%nat /\
               Forall answered (question_history (state b))) /\
  (forall (a : InterviewAgent) (now name : string) (f : option (list Byte.byte)) (env : TurnEnv)
          (turns : list (string * option (list Byte.byte) * TurnEnv)),
     (5 <= List.length turns)%nat ->
     let a1 := fst (process_response (fst (start_interview a now)) name f env) in
     let a' := fold_left respond turns a1 in
     a' = fold_left respond (firstn 5 turns) a1 /\
     current_phase (state a') = COMPLETED /\
     question_count (state a') = 5%Z /\
     max_questions (state a') = 5%Z /\
     List.length (question_history (state a')) = 5%nat /\
     Forall answered (question_history (state a'))).
Proof.
  split; [|split; [|split]].
  - intros a llm. destruct (generate_spec a llm) as (q & d & E & _). rewrite E. simpl.
    split; [reflexivity|]. rewrite List.length_app. simpl. lia.
  - intros a now name f env turns Hlen.
    apply (fold_awaiting turns _ 1); [apply intro_awaiting | simpl; lia].
  - intros a t H. apply final_turn_wrap_up. exact H.
  - intros a now name f env turns Hlen a1 a'.
    pose proof (fold_awaiting (firstn 4 turns) a1 1 (intro_awaiting a now name f env)) as H4.
    rewrite List.length_firstn in H4.
    replace (Nat.min 4 (List.length turns)) with 4%nat in H4 by lia.
    specialize (H4 ltac:(lia)). simpl in H4.
    destruct (skipn 4 turns) as [|t5 rest] eqn:Es.
    { pose proof (List.length_skipn 4 turns) as L. rewrite Es in L. simpl in L. lia. }
    assert (Et : turns = (firstn 4 turns ++ [t5] ++ rest)%list).
    { change ([t5] ++ rest)%list with (t5 :: rest). rewrite <- Es. symmetry. apply firstn_skipn. }
    assert (E5 : firstn 5 turns = (firstn 4 turns ++ [t5])%list).
    { rewrite Et at 1. rewrite firstn_app. rewrite List.length_firstn.
      replace (Nat.min 4 (List.length turns)) with 4%nat by lia.
      rewrite firstn_firstn. replace (Nat.min 5 4) with 4%nat by reflexivity.
      simpl. reflexivity. }
    pose proof (final_turn (fold_left respond (firstn 4 turns) a1) t5 H4) as Hf.
    assert (Ea : a' = respond (fold_left respond (firstn 4 turns) a1) t5).
    { unfold a'. rewrite Et at 1. rewrite fold_left_app. simpl.
      apply completed_fold. exact (proj1 Hf). }
    rewrite Ea. split.
    + rewrite E5, fold_left_app. reflexivity.
    + exact Hf.
Qed.

Lemma question_count_and_wrap_up_witness :
  let t := ("SUM adds the values of a range", None, mkTurnEnv [] []) in
  let a1 := fst (process_response (fst (start_interview (init_agent "20240101_000000") "20240101_000100"))
                   "Ana" None (mkTurnEnv [] [])) in
  (List.length (repeat t 4) <= 4)%nat /\
  awaiting_answer (fold_left respond (repeat t 4) a1) 5 /\
  (exists b, respond (fold_left respond (repeat t 4) a1) t =
               fst (handle_wrap_up (with_state b (set_phase WRAP_UP (state b)))) /\
             question_count (state b) = 5%Z /\
             List.length (question_history (state b)) = 5%nat /\
             Forall answered (question_history (state b))) /\
  (5 <= List.length (repeat t 6))%nat /\
  current_phase (state (fold_left respond (repeat t 6) a1)) = COMPLETED.
Proof.
  intros t a1.
  assert (H4 : (List.length (repeat t 4) <= 4)%nat) by (simpl; lia).
  assert (A : awaiting_answer (fold_left respond (repeat t 4) a1) 5).
  { exact (proj1 (proj2 question_count_and_wrap_up)
             (init_agent "20240101_000000") "20240101_000100" "Ana" None (mkTurnEnv [] [])
             (repeat t 4) H4). }
  assert (H6 : (5 <= List.length (repeat t 6))%nat) by (simpl; lia).
  split; [exact H4|]. split; [exact A|]. split.
  - exact (proj1 (proj2 (proj2 question_count_and_wrap_up)) _ t A).
  - split; [exact H6|].
    exact (proj1 (proj2 (proj2 (proj2 (proj2 question_count_and_wrap_up))
             (init_agent "20240101_000000") "20240101_000100" "Ana" None (mkTurnEnv [] [])
             (repeat t 6) H6))).
Defined.

(** *** Wrap-up *)

Lemma recorded_scores_In (h : list QuestionHistory) (x : Q) :
  In x (recorded_scores h) <-> exists q, In q h /\ score q = Some x.
Proof.
  unfold recorded_scores. rewrite in_flat_map. split.
  - intros (q & Hq & Hx). exists q. split; [exact Hq|].
    destruct (score q) as [s|]; [destruct Hx as [<-|[]]; reflexivity | destruct Hx].
  - intros (q & Hq & Hx). exists q. split; [exact Hq|]. rewrite Hx. left; reflexivity.
Qed.

Lemma mean_spec (xs : list Q) :
  (xs = [] -> mean xs = 0) /\
  (xs <> [] -> inject_Z (Z.of_nat (List.length xs)) * mean xs == Qsum xs).
Proof.
  split; [intros ->; reflexivity|].
  intros Hne. destruct xs as [|x xs]; [contradiction|].
  unfold mean. apply Qmult_div_r.
  intros H. unfold Qeq in H. simpl in H. lia.
Qed.

(** C5: the wrap-up handler moves the session to Completed and sets
    [overall_score] to the mean of the non-null scores of the history:
    0 when there are none, otherwise the value whose product with their
    number is their sum.  The history is left as it is, so running the
    wrap-up again computes the same score; a wrap-up turn of
    [process_response] is this handler. *)
Theorem wrap_up_overall_score :
  forall a : InterviewAgent,
    let a' := fst (handle_wrap_up a) in
    let scores := recorded_scores (question_history (state a)) in
    current_phase (state a') = COMPLETED /\
    question_history (state a') = question_history (state a) /\
    overall_score (state a') = Some (mean scores) /\
    (forall x, In x scores <-> exists q, In q (question_history (state a)) /\ score q = Some x) /\
    (scores = [] -> mean scores = 0) /\
    (scores <> [] -> inject_Z (Z.of_nat (List.length scores)) * mean scores == Qsum scores) /\
    overall_score (state (fst (handle_wrap_up a'))) = overall_score (state a') /\
    (current_phase (state a) = WRAP_UP ->
       forall i f env, fst (process_response a i f env) = a').
Proof.
  intros a a' scores.
  split; [reflexivity|]. split; [reflexivity|]. split; [reflexivity|].
  split; [intros x; apply recorded_scores_In|].
  split; [apply (proj1 (mean_spec scores))|].
  split; [apply (proj2 (mean_spec scores))|].
  split; [reflexivity|].
  intros Hph i f env. rewrite process_response_fst, Hph. reflexivity.
Qed.

Lemma wrap_up_overall_score_witness :
  let qh (s : option Q) :=
    mkQuestionHistory 1 (JStr "What does VLOOKUP do?") "text" (JNum 2)
      "Lookup Functions (VLOOKUP, INDEX/MATCH)" (Some "It looks up a value") None s
      None [] [] in
  let a := {| state := {| candidate_name := Some "Ana"; current_phase := WRAP_UP;
                          question_count := 3; max_questions := 5; current_difficulty := 2;
                          question_history := [qh (Some 7); qh None; qh (Some 8)];
                          overall_score := None; session_id := "interview_20240101_000000" |};
              tested_skills := [] |} in
  let scores := recorded_scores (question_history (state a)) in
  (scores <> [] /\
   inject_Z (Z.of_nat (List.length scores)) * mean scores == Qsum scores) /\
  (current_phase (state a) = WRAP_UP /\
   fst (process_response a "" None (mkTurnEnv [] [])) = fst (handle_wrap_up a)) /\
  (recorded_scores (question_history (state (init_agent "20240101_000000"))) = [] /\
   mean (recorded_scores (question_history (state (init_agent "20240101_000000")))) = 0).
Proof.
  intros qh a scores.
  assert (Hne : scores <> []) by (vm_compute; discriminate).
  assert (Hph : current_phase (state a) = WRAP_UP) by reflexivity.
  assert (He : recorded_scores (question_history (state (init_agent "20240101_000000"))) = [])
    by reflexivity.
  destruct (wrap_up_overall_score a) as (_ & _ & _ & _ & _ & H1 & _ & H2).
  destruct (wrap_up_overall_score (init_agent "20240101_000000")) as (_ & _ & _ & _ & H0 & _).
  split; [split; [exact Hne | exact (H1 Hne)]|].
  split; [split; [exact Hph | exact (H2 Hph "" None (mkTurnEnv [] []))]|].
  split; [exact He | exact (H0 He)].
Defined.

(** *** The completed phase *)

(** C2 (counterexample): a session run to completion (start, name, five
    answers, with every model call failing) answers a further request with
    the error [Invalid interview phase], not with a report. *)
Lemma completed_input_is_error :
  let env := mkTurnEnv [] [] in
  let a := run_ops "20240101_000000"
             [OpStart "20240101_000000"; OpRespond "Ana" None env;
              OpRespond "=SUM(A1:A10)" None env; OpRespond "=SUM(A1:A10)" None env;
              OpRespond "=SUM(A1:A10)" None env; OpRespond "=SUM(A1:A10)" None env;
              OpRespond "=SUM(A1:A10)" None env] in
  current_phase (state a) = COMPLETED /\
  r_error (snd (process_response a "show my report" None env)) = Some "Invalid interview phase" /\
  r_overall_score (snd (process_response a "show my report" None env)) = None.
Proof. vm_compute. repeat split; reflexivity. Qed.

(** C2 (amended): in the Completed phase every input is refused:
    [process_response] leaves the agent unchanged and returns only the
    error [Invalid interview phase] (no phase, no score, no report), and
    any further turns leave the agent as it is. *)
Theorem completed_phase_refuses_input :
  forall (a : InterviewAgent),
    current_phase (state a) = COMPLETED ->
    (forall (i : string) (f : option (list Byte.byte)) (env : TurnEnv),
       process_response a i f env =
         (a, {| r_phase := None; r_error := Some "Invalid interview phase"; r_question := None;
                r_evaluation := None; r_question_id := None; r_overall_score := None;
                r_next_action := None |})) /\
    (forall turns : list (string * option (list Byte.byte) * TurnEnv),
       fold_left respond turns a = a).
Proof.
  intros a H. split.
  - intros i f env. unfold process_response. rewrite H. reflexivity.
  - intros turns. apply completed_fold. exact H.
Qed.

Lemma completed_phase_refuses_input_witness :
  let a := fst (handle_wrap_up (init_agent "20240101_000000")) in
  current_phase (state a) = COMPLETED /\
  process_response a "show my report" None (mkTurnEnv [] []) =
    (a, {| r_phase := None; r_error := Some "Invalid interview phase"; r_question := None;
           r_evaluation := None; r_question_id := None; r_overall_score := None;
           r_next_action := None |}).
Proof.
  intros a.
  assert (H : current_phase (state a) = COMPLETED) by reflexivity.
  split; [exact H|].
  exact (proj1 (completed_phase_refuses_input a H) "show my report" None (mkTurnEnv [] [])).
Defined.

(** *** Restarting and the tested skills *)

Lemma set_add_incl (x : string) (xs : list string) :
  incl xs (set_add x xs) /\ In x (set_add x xs).
Proof.
  unfold set_add. destruct (mem x xs) eqn:E.
  - split; [apply incl_refl | apply mem_In; exact E].
  - split; [apply incl_appl, incl_refl | apply in_or_app; right; left; reflexivity].
Qed.

Lemma generate_tested (a : InterviewAgent) (llm : list (option jobj)) :
  incl (tested_skills a) (tested_skills (fst (generate_next_question a llm))).
Proof.
  destruct (generate_spec a llm) as (q & d & E & _). rewrite E. simpl.
  apply set_add_incl.
Qed.

Lemma questioning_continue_tested (a : InterviewAgent) (ev : option EvalDict) (env : TurnEnv) :
  incl (tested_skills a) (tested_skills (fst (questioning_continue a ev env))).
Proof.
  rewrite questioning_continue_fst.
  destruct (Z.leb _ _); [apply incl_refl | apply generate_tested].
Qed.

Lemma process_response_tested (a : InterviewAgent) (i : string) (f : option (list Byte.byte))
    (env : TurnEnv) :
  incl (tested_skills a) (tested_skills (fst (process_response a i f env))).
Proof.
  rewrite process_response_fst.
  destruct (current_phase (state a)).
  - rewrite handle_introduction_fst.
    exact (generate_tested (with_state a (set_phase QUESTIONING (set_name (strip i) (state a))))
             (gen_llm env)).
  - destruct (history_cases (question_history (state a))) as [Eh | (h & q & Eh)].
    + unfold handle_questioning_phase. rewrite Eh. simpl. apply questioning_continue_tested.
    + destruct (handle_questioning_fst a i f env h q Eh) as (ev & _ & E).
      rewrite E.
      match goal with
      | |- incl _ (tested_skills (fst (questioning_continue ?b ?e ?v))) =>
          exact (questioning_continue_tested b e v)
      end.
  - apply incl_refl.
  - apply incl_refl.
Qed.

Lemma apply_op_tested (a : InterviewAgent) (op : Op) :
  incl (tested_skills a) (tested_skills (apply_op a op)).
Proof.
  destruct op as [now | i f env]; simpl; [apply incl_refl | apply process_response_tested].
Qed.

Lemma fold_ops_tested (ops : list Op) (a : InterviewAgent) :
  incl (tested_skills a) (tested_skills (fold_left apply_op ops a)).
Proof.
  revert a; induction ops as [|op ops IH]; intros a; simpl; [apply incl_refl|].
  eapply incl_tran; [apply apply_op_tested | apply IH].
Qed.

Lemma available_skills_spec (tested : list string) :
  (exists s, In s skill_areas /\ ~ In s tested) ->
  forall s, In s (available_skills tested) <-> In s skill_areas /\ ~ In s tested.
Proof.
  intros (s0 & Hs0 & Hn0) s. unfold available_skills.
  destruct (filter (fun skill => negb (mem skill tested)) skill_areas) as [|x l] eqn:E.
  - exfalso. assert (Hin : In s0 (filter (fun skill => negb (mem skill tested)) skill_areas)).
    { apply filter_In. split; [exact Hs0|].
      destruct (mem s0 tested) eqn:M; [apply mem_In in M; contradiction | reflexivity]. }
    rewrite E in Hin. exact Hin.
  - rewrite <- E, filter_In. split.
    + intros [Hs M]. split; [exact Hs|]. intros Hin. apply mem_In in Hin.
      rewrite Hin in M. discriminate.
    + intros [Hs Hn]. split; [exact Hs|].
      destruct (mem s tested) eqn:M; [apply mem_In in M; contradiction | reflexivity].
Qed.

Lemma available_skills_exhausted (tested : list string) :
  incl skill_areas tested -> available_skills tested = skill_areas.
Proof.
  intros H. unfold available_skills.
  replace (filter (fun skill => negb (mem skill tested)) skill_areas) with (@nil string).
  - reflexivity.
  - symmetry. rewrite (filter_ext_in _ (fun _ => false)); [apply filter_false|].
    intros s Hs. assert (M : mem s tested = true) by (apply mem_In, H, Hs).
    rewrite M. reflexivity.
Qed.

(** C10: [start_interview] installs a fresh state (Introduction, count 0,
    difficulty 2, no history, no name, no score, session id built from the
    start time) and keeps [tested_skills], hence the offered skills.  Each
    generated question adds its skill area to [tested_skills], which no
    operation shrinks; as long as some catalog skill is untested, the
    offered skills are exactly the untested ones, and once all are tested
    the whole catalog is offered again. *)
Theorem restart_keeps_tested_skills :
  (forall (a : InterviewAgent) (now : string),
     let a' := fst (start_interview a now) in
     current_phase (state a') = INTRODUCTION /\
     question_count (state a') = 0%Z /\
     current_difficulty (state a') = 2%Z /\
     question_history (state a') = [] /\
     candidate_name (state a') = None /\
     overall_score (state a') = None /\
     session_id (state a') = ("interview_" ++ now)%string /\
     tested_skills a' = tested_skills a /\
     available_skills (tested_skills a') = available_skills (tested_skills a)) /\
  (forall (a : InterviewAgent) (llm : list (option jobj)),
     let a' := fst (generate_next_question a llm) in
     exists q, last (map Some (question_history (state a'))) None = Some q /\
               In (skill_area q) (tested_skills a') /\
               incl (tested_skills a) (tested_skills a')) /\
  (forall (a : InterviewAgent) (ops : list Op),
     incl (tested_skills a) (tested_skills (fold_left apply_op ops a))) /\
  (forall tested : list string,
     (exists s, In s skill_areas /\ ~ In s tested) ->
     forall s, In s (available_skills tested) <-> In s skill_areas /\ ~ In s tested) /\
  (forall tested : list string,
     incl skill_areas tested -> available_skills tested = skill_areas).
Proof.
  split; [|split; [|split; [|split]]].
  - intros a now. repeat split.
  - intros a llm. destruct (generate_spec a llm) as (q & d & E & _).
    cbv zeta. rewrite E. simpl. exists q.
    split; [apply last_map_app|]. apply and_comm, set_add_incl.
  - intros a ops. apply fold_ops_tested.
  - apply available_skills_spec.
  - apply available_skills_exhausted.
Qed.

Lemma restart_keeps_tested_skills_witness :
  (exists s, In s skill_areas /\ ~ In s ["Charts and Visualization"]) /\
  ~ In "Charts and Visualization" (available_skills ["Charts and Visualization"]) /\
  incl skill_areas skill_areas /\
  available_skills skill_areas = skill_areas.
Proof.
  assert (H : exists s, In s skill_areas /\ ~ In s ["Charts and Visualization"]).
  { exists "Pivot Tables and Data Analysis". split.
    - simpl. auto 10.
    - simpl. intros [E | []]. discriminate. }
  assert (Hi : incl skill_areas skill_areas) by apply incl_refl.
  split; [exact H|]. split.
  - intros Hin.
    apply (proj1 (proj1 (proj2 (proj2 (proj2 restart_keeps_tested_skills))) _ H _)) in Hin.
    destruct Hin as [_ Hn]. apply Hn. left. reflexivity.
  - split; [exact Hi|].
    exact (proj2 (proj2 (proj2 (proj2 restart_keeps_tested_skills))) skill_areas Hi).
Defined.

End AgentFacts.

(** ** The performance report *)

Module ReportFacts.
Import Report.

Lemma add_to_breakdown_keys (bd : list (string * SkillData)) (k : string) (sc : list Q) :
  map fst (add_to_breakdown bd k sc) =
  if existsb (String.eqb k) (map fst bd) then map fst bd else (map fst bd ++ [k])%list.
Proof.
  induction bd as [|[k' d'] bd IH]; simpl; [reflexivity|].
  destruct (String.eqb k k') eqn:E; simpl.
  - apply String.eqb_eq in E. subst k'. reflexivity.
  - rewrite IH. destruct (existsb _ _); reflexivity.
Qed.

Lemma existsb_eqb_In (k : string) (l : list string) :
  existsb (String.eqb k) l = true <-> In k l.
Proof.
  rewrite existsb_exists. split.
  - intros [y [Hy E]]. apply String.eqb_eq in E. subst y. exact Hy.
  - intros Hk. exists k. split; [exact Hk | apply String.eqb_refl].
Qed.

Lemma add_to_breakdown_In_keys (bd : list (string * SkillData)) (k s : string) (sc : list Q) :
  In s (map fst (add_to_breakdown bd k sc)) <-> s = k \/ In s (map fst bd).
Proof.
  rewrite add_to_breakdown_keys.
  destruct (existsb (String.eqb k) (map fst bd)) eqn:E.
  - apply existsb_eqb_In in E. split; [right; exact H|].
    intros [-> | H]; assumption.
  - rewrite in_app_iff. simpl. split.
    + intros [H | [H | []]]; [right; exact H | left; symmetry; exact H].
    + intros [H | H]; [right; left; symmetry; exact H | left; exact H].
Qed.

Lemma add_to_breakdown_nodup (bd : list (string * SkillData)) (k : string) (sc : list Q) :
  NoDup (map fst bd) -> NoDup (map fst (add_to_breakdown bd k sc)).
Proof.
  intros H. rewrite add_to_breakdown_keys.
  destruct (existsb (String.eqb k) (map fst bd)) eqn:E; [exact H|].
  apply NoDup_app; [exact H | constructor; [intros [] | constructor] |].
  intros a Ha [Hk | []]. subst a.
  apply existsb_eqb_In in Ha. rewrite Ha in E. discriminate.
Qed.

Lemma add_to_breakdown_In (bd : list (string * SkillData)) (k s : string) (sc : list Q)
    (d : SkillData) :
  NoDup (map fst bd) ->
  In (s, d) (add_to_breakdown bd k sc) ->
  (s <> k /\ In (s, d) bd) \/
  (s = k /\ ((exists d0, In (k, d0) bd /\
                         d = mkSkillData (sd_scores d0 ++ sc)%list (S (sd_questions d0))) \/
             (~ In k (map fst bd) /\ d = mkSkillData sc 1))).
Proof.
  induction bd as [|[k' d'] bd IH]; simpl; intros Hnd Hin.
  - destruct Hin as [E | []]. injection E as <- <-. right. split; [reflexivity|].
    right. split; [intros [] | reflexivity].
  - apply NoDup_cons_iff in Hnd as [Hk' Hnd].
    destruct (String.eqb k k') eqn:E.
    + apply String.eqb_eq in E. subst k'. destruct Hin as [Eh | Hin].
      * injection Eh as <- <-. right. split; [reflexivity|].
        left. exists d'. split; [left; reflexivity | reflexivity].
      * left. split; [|right; exact Hin].
        intros ->. apply Hk'. apply (in_map fst bd (k, d)). exact Hin.
    + apply String.eqb_neq in E. destruct Hin as [Eh | Hin].
      * injection Eh as <- <-. left. split; [intros ->; apply E; reflexivity | left; reflexivity].
      * destruct (IH Hnd Hin) as [[Hne Hb] | [Hs [(d0 & Hd0 & Ed) | [Hn Ed]]]].
        -- left. split; [exact Hne | right; exact Hb].
        -- right. split; [exact Hs|]. left. exists d0. split; [right; exact Hd0 | exact Ed].
        -- right. split; [exact Hs|]. right. split; [|exact Ed].
           intros [Ek | Hk]; [apply E; symmetry; exact Ek | exact (Hn Hk)].
Qed.

Lemma filter_skill_single (s : string) (q : QuestionEntry) :
  filter (fun x => String.eqb (skill_of x) s) [q] =
  if String.eqb (skill_of q) s then [q] else [].
Proof. simpl. destruct (String.eqb (skill_of q) s); reflexivity. Qed.

Lemma breakdown_step (P : list QuestionEntry) (bd : list (string * SkillData)) (q : QuestionEntry) :
  NoDup (map fst bd) ->
  (forall s, In s (map fst bd) <-> exists q', In q' P /\ skill_of q' = s) ->
  (forall s d, In (s, d) bd ->
     sd_scores d = flat_map entry_scores (filter (fun x => String.eqb (skill_of x) s) P) /\
     sd_questions d = List.length (filter (fun x => String.eqb (skill_of x) s) P)) ->
  let bd' := add_to_breakdown bd (skill_of q) (entry_scores q) in
  NoDup (map fst bd') /\
  (forall s, In s (map fst bd') <-> exists q', In q' (P ++ [q])%list /\ skill_of q' = s) /\
  (forall s d, In (s, d) bd' ->
     sd_scores d = flat_map entry_scores (filter (fun x => String.eqb (skill_of x) s) (P ++ [q])%list) /\
     sd_questions d = List.length (filter (fun x => String.eqb (skill_of x) s) (P ++ [q])%list)).
Proof.
  intros Hnd Hk Hv bd'. split; [|split].
  - apply add_to_breakdown_nodup. exact Hnd.
  - intros s. unfold bd'. rewrite add_to_breakdown_In_keys, Hk. split.
    + intros [-> | (q' & Hq' & Es)].
      * exists q. split; [apply in_or_app; right; left; reflexivity | reflexivity].
      * exists q'. split; [apply in_or_app; left; exact Hq' | exact Es].
    + intros (q' & Hq' & Es). apply in_app_or in Hq' as [Hq' | [<- | []]].
      * right. exists q'. split; assumption.
      * left. symmetry. exact Es.
  - intros s d Hin. unfold bd' in Hin.
    rewrite filter_app, flat_map_app, List.length_app, filter_skill_single.
    destruct (add_to_breakdown_In bd (skill_of q) s (entry_scores q) d Hnd Hin)
      as [[Hne Hb] | [Hs [(d0 & Hd0 & Ed) | [Hn Ed]]]].
    + replace (String.eqb (skill_of q) s) with false
        by (symmetry; apply String.eqb_neq; intros E; apply Hne; symmetry; exact E).
      simpl. rewrite app_nil_r, Nat.add_0_r. apply Hv. exact Hb.
    + subst s. rewrite String.eqb_refl. subst d. simpl.
      destruct (Hv _ _ Hd0) as [E1 E2]. rewrite E1, E2, app_nil_r. split; [reflexivity | lia].
    + subst s. rewrite String.eqb_refl. subst d. simpl.
      destruct (filter (fun x => String.eqb (skill_of x) (skill_of q)) P) as [|x l] eqn:EF.
      * simpl. rewrite app_nil_r. split; reflexivity.
      * exfalso. apply Hn. apply Hk. exists x.
        assert (Hx : In x (filter (fun x => String.eqb (skill_of x) (skill_of q)) P))
          by (rewrite EF; left; reflexivity).
        apply filter_In in Hx as [Hx Ex]. apply String.eqb_eq in Ex. split; assumption.
Qed.

Lemma build_breakdown_fold (qs P : list QuestionEntry) (bd : list (string * SkillData)) :
  NoDup (map fst bd) ->
  (forall s, In s (map fst bd) <-> exists q', In q' P /\ skill_of q' = s) ->
  (forall s d, In (s, d) bd ->
     sd_scores d = flat_map entry_scores (filter (fun x => String.eqb (skill_of x) s) P) /\
     sd_questions d = List.length (filter (fun x => String.eqb (skill_of x) s) P)) ->
  let bd' := fold_left (fun bd q => add_to_breakdown bd (skill_of q) (entry_scores q)) qs bd in
  NoDup (map fst bd') /\
  (forall s, In s (map fst bd') <-> exists q', In q' (P ++ qs)%list /\ skill_of q' = s) /\
  (forall s d, In (s, d) bd' ->
     sd_scores d = flat_map entry_scores (filter (fun x => String.eqb (skill_of x) s) (P ++ qs)%list) /\
     sd_questions d = List.length (filter (fun x => String.eqb (skill_of x) s) (P ++ qs)%list)).
Proof.
  revert P bd. induction qs as [|q qs IH]; intros P bd Hnd Hk Hv; simpl.
  - rewrite app_nil_r. split; [exact Hnd|]. split; [exact Hk | exact Hv].
  - destruct (breakdown_step P bd q Hnd Hk Hv) as (Hnd' & Hk' & Hv').
    replace (P ++ q :: qs)%list with ((P ++ [q]) ++ qs)%list by (rewrite <- app_assoc; reflexivity).
    apply IH; assumption.
Qed.

Lemma build_breakdown_spec (qs : list QuestionEntry) :
  let bd := build_breakdown qs in
  NoDup (map fst bd) /\
  (forall s, In s (map fst bd) <-> exists q, In q qs /\ skill_of q = s) /\
  (forall s d, In (s, d) bd ->
     sd_scores d = flat_map entry_scores (filter (fun x => String.eqb (skill_of x) s) qs) /\
     sd_questions d = List.length (filter (fun x => String.eqb (skill_of x) s) qs)).
Proof.
  apply (build_breakdown_fold qs [] []).
  - constructor.
  - intros s. simpl. split; [intros [] | intros (q & [] & _)].
  - intros s d [].
Qed.

Lemma map_fst_entries (bd : list (string * SkillData)) :
  map fst (map (fun '(k, d) => (k, skill_entry d)) bd) = map fst bd.
Proof. induction bd as [|[k d] bd IH]; simpl; [reflexivity | rewrite IH; reflexivity]. Qed.

Lemma In_entries (bd : list (string * SkillData)) (s : string) (e : SkillEntry) :
  In (s, e) (map (fun '(k, d) => (k, skill_entry d)) bd) ->
  exists d, In (s, d) bd /\ e = skill_entry d.
Proof.
  rewrite in_map_iff. intros ([k d] & E & Hin). injection E as <- <-.
  exists d. split; [exact Hin | reflexivity].
Qed.

(** C8 (counterexample): for three answers on one skill scored 7, 8 and 8
    the breakdown entry's [average_score] is 7.7, the mean 23/3 rounded to
    one decimal, not the mean itself. *)
Lemma skill_average_is_rounded :
  let e (s : Q) := mkEntry (Some "Charts and Visualization") (Some s) [] [] in
  match create_performance_report (Some [e 7; e 8; e 8]) with
  | inr r =>
      match report r with
      | Some rep =>
          match skill_breakdown rep with
          | [(_, se)] => Qeq_bool (average_score se) (Agent.mean [7; 8; 8]) = false /\
                         Qeq_bool (Agent.mean [7; 8; 8]) (23#3) = true /\
                         Qeq_bool (average_score se) (77#10) = true
          | _ => False
          end
      | None => False
      end
  | inl _ => False
  end.
Proof. vm_compute. repeat split; reflexivity. Qed.

(** C8 (amended): [create_performance_report] returns the no-data error
    with an empty report when the history is missing or empty, and never
    otherwise.  Whenever it returns a report for a non-empty history, the
    breakdown has one key per distinct skill area present (entries without
    one count as "General Excel"), and each entry's [average_score] is the
    mean of that skill's non-null scores (0 if none) rounded to one decimal,
    its [questions_asked] the number of its questions and its level the
    level of the unrounded mean. *)
Theorem performance_report_breakdown :
  (forall h : option (list QuestionEntry),
     h = None \/ h = Some [] ->
     create_performance_report h =
       inr {| report := None; error := Some "No interview data available" |}) /\
  (forall (qs : list QuestionEntry) (r : ReportResult),
     qs <> [] -> create_performance_report (Some qs) = inr r ->
     error r = None /\
     exists rep, report r = Some rep /\
       NoDup (map fst (skill_breakdown rep)) /\
       (forall s, In s (map fst (skill_breakdown rep)) <-> exists q, In q qs /\ skill_of q = s) /\
       (forall s e, In (s, e) (skill_breakdown rep) ->
          let sc := flat_map entry_scores (filter (fun x => String.eqb (skill_of x) s) qs) in
          average_score e = round1 (Agent.mean sc) /\
          questions_asked e = List.length (filter (fun x => String.eqb (skill_of x) s) qs) /\
          performance_level e = get_performance_level (Agent.mean sc))).
Proof.
  split.
  - intros h [-> | ->]; reflexivity.
  - intros qs r Hne H. destruct qs as [|q0 qs']; [contradiction|].
    unfold create_performance_report in H.
    destruct (generate_recommendations _ _ _) as [e|recs]; [discriminate|].
    destruct (negb _); [discriminate|].
    injection H as <-. split; [reflexivity|].
    eexists. split; [reflexivity|]. simpl skill_breakdown.
    destruct (build_breakdown_spec (q0 :: qs')) as (Hnd & Hk & Hv).
    rewrite map_fst_entries. split; [exact Hnd|]. split; [exact Hk|].
    intros s e Hin. apply In_entries in Hin as (d & Hd & ->).
    destruct (Hv s d Hd) as [E1 E2]. unfold skill_entry; simpl.
    rewrite E1, E2. repeat split.
Qed.

Lemma performance_report_breakdown_witness :
  let e (k : string) (s : option Q) := mkEntry (Some k) s [] [] in
  let qs := [e "Charts and Visualization" (Some 7); e "Pivot Tables and Data Analysis" None;
             e "Charts and Visualization" (Some 8)] in
  (@None (list QuestionEntry) = None \/ @None (list QuestionEntry) = Some []) /\
  create_performance_report None =
    inr {| report := None; error := Some "No interview data available" |} /\
  qs <> [] /\
  exists r, create_performance_report (Some qs) = inr r /\
    error r = None /\
    exists rep, report r = Some rep /\
      In "Pivot Tables and Data Analysis" (map fst (skill_breakdown rep)).
Proof.
  intros e qs.
  assert (H0 : @None (list QuestionEntry) = None \/ @None (list QuestionEntry) = Some [])
    by (left; reflexivity).
  assert (Hne : qs <> []) by discriminate.
  split; [exact H0|]. split; [exact (proj1 performance_report_breakdown None H0)|].
  split; [exact Hne|].
  destruct (create_performance_report (Some qs)) as [msg|r] eqn:E.
  - vm_compute in E. discriminate.
  - exists r. split; [reflexivity|].
    destruct (proj2 performance_report_breakdown qs r Hne E) as (Herr & rep & Hrep & _ & Hk & _).
    split; [exact Herr|]. exists rep. split; [exact Hrep|].
    apply Hk. exists (e "Pivot Tables and Data Analysis" None).
    split; [right; left; reflexivity | reflexivity].
Defined.

End ReportFacts.

(** * Further properties of the evaluation engine *)

Module EvaluationExtra.
Import Evaluation PyFacts EvaluationFacts.

Lemma lookup_setdefault_same (k : string) (v : jval) (d : jobj) :
  lookup k (setdefault k v d) = match lookup k d with Some x => Some x | None => Some v end.
Proof.
  unfold setdefault. destruct (lookup k d) eqn:E; [exact E|].
  rewrite AgentFacts.lookup_app, E. simpl. rewrite String.eqb_refl. reflexivity.
Qed.

Lemma validate_spec (d : jobj) :
  validate_evaluation_response d = true ->
  exists sc q t,
    lookup "overall_score" d = Some sc /\ as_number sc = Some q /\ 0 <= q /\ q <= 10 /\
    lookup "detailed_feedback" d = Some (JStr t) /\ (10 <= String.length (strip t))%nat /\
    list_field_ok "strengths" d = true /\ list_field_ok "improvements" d = true.
Proof.
  unfold validate_evaluation_response.
  destruct (lookup "overall_score" d) as [sc|] eqn:Es; [|discriminate].
  destruct (lookup "detailed_feedback" d) as [fb|] eqn:Ef; [|discriminate].
  destruct (as_number sc) as [q|] eqn:Eq; [|discriminate].
  intros H. repeat (apply andb_prop in H as [H ?]).
  destruct fb; try discriminate.
  match goal with
  | Hf : feedback_ok _ = true |- _ =>
      unfold feedback_ok in Hf; apply andb_prop in Hf as [_ Hf]; apply Nat.leb_le in Hf
  end.
  exists sc, q, s. repeat split; try assumption; try reflexivity;
    apply Qle_bool_iff; assumption.
Qed.

Lemma llm_result_spec (ds di : string) (d : jobj) :
  (llm_result ds di (Some d) <> None <-> validate_evaluation_response d = true) /\
  (forall r, llm_result ds di (Some d) = Some r ->
     exists sc q t,
       lookup "overall_score" d = Some sc /\ as_number sc = Some q /\ 0 <= q /\ q <= 10 /\
       score r == q /\
       lookup "detailed_feedback" d = Some (JStr t) /\ feedback r = t /\
       (10 <= String.length (strip t))%nat /\
       strengths r = match lookup "strengths" d with Some (JArr l) => l | _ => [JStr ds] end /\
       improvements r = match lookup "improvements" d with Some (JArr l) => l | _ => [JStr di] end /\
       category_scores r = Some (match lookup "category_scores" d with Some v => v | None => JObj [] end)).
Proof.
  unfold llm_result.
  destruct (validate_evaluation_response d) eqn:V; simpl.
  - destruct (validate_spec d V) as (sc & q & t & Es & Eq & H0 & H10 & Ef & Hl & Hs & Hi).
    rewrite !AgentFacts.lookup_setdefault_other by discriminate.
    rewrite Es, Ef, Eq.
    split; [split; [reflexivity | discriminate]|].
    intros r Hr. injection Hr as <-. exists sc, q, t. simpl.
    split; [reflexivity|]. do 3 (split; [assumption|]).
    split; [unfold clamp; rewrite Q.min_r by exact H10; rewrite Q.max_r by exact H0; reflexivity|].
    split; [reflexivity|]. split; [reflexivity|]. split; [exact Hl|].
    repeat first [ rewrite lookup_setdefault_same
                 | rewrite AgentFacts.lookup_setdefault_other by discriminate ].
    unfold list_field_ok in Hs, Hi.
    split; [destruct (lookup "strengths" d) as [[]|]; try discriminate; reflexivity|].
    split; [destruct (lookup "improvements" d) as [[]|]; try discriminate; reflexivity|].
    destruct (lookup "category_scores" d); reflexivity.
  - split; [split; [intros H; exfalso; apply H; reflexivity | discriminate]|].
    discriminate.
Qed.

Lemma all_upper_app (s t : string) : all_upper (s ++ t) = all_upper s && all_upper t.
Proof.
  induction s as [|c s IH]; simpl; [reflexivity|].
  rewrite IH. apply andb_assoc.
Qed.

Lemma find_funcs_aux_names (s run : string) :
  all_upper run = true ->
  Forall (fun f => f <> "" /\ all_upper f = true) (find_funcs_aux run s).
Proof.
  revert run. induction s as [|c s IH]; intros run Hrun; simpl; [constructor|].
  destruct (is_upper c) eqn:Hc.
  - apply IH. rewrite all_upper_app. simpl. rewrite Hrun, Hc. reflexivity.
  - destruct (Ascii.eqb c "(" && negb (String.eqb run "")) eqn:E.
    + apply andb_prop in E as [_ E]. apply negb_true_iff, String.eqb_neq in E.
      constructor; [split; assumption|]. apply IH. reflexivity.
    + apply IH. reflexivity.
Qed.

Lemma dedup_In (x : string) (xs : list string) : In x (dedup xs) <-> In x xs.
Proof.
  induction xs as [|y xs IH]; simpl; [tauto|].
  rewrite filter_In, IH. split.
  - intros [H|[H _]]; [left; exact H | right; exact H].
  - intros [H|H]; [left; exact H|].
    destruct (String.eqb y x) eqn:E.
    + left. apply String.eqb_eq. exact E.
    + right. split; [exact H | reflexivity].
Qed.

Lemma dedup_NoDup (xs : list string) : NoDup (dedup xs).
Proof.
  induction xs as [|y xs IH]; simpl; constructor.
  - rewrite filter_In. intros [_ H]. rewrite String.eqb_refl in H. discriminate.
  - apply NoDup_filter. exact IH.
Qed.

Lemma formula_cells_prefix (ws : Worksheet) (c f : string) :
  In (c, f) (formula_cells ws) -> String.prefix "=" f = true /\ In (c, CStr f) (ws_cells ws).
Proof.
  unfold formula_cells. rewrite in_flat_map. intros [[c' v] [Hin H]].
  destruct v; simpl in H; try contradiction.
  destruct (String.prefix "=" s) eqn:E; simpl in H; [|contradiction].
  destruct H as [H|[]]. injection H as <- <-. split; assumption.
Qed.

Lemma clamp_id (lo hi x : Q) : lo <= x -> x <= hi -> clamp lo hi x == x.
Proof.
  intros H1 H2. unfold clamp. rewrite Q.min_r by exact H2. rewrite Q.max_r by exact H1.
  reflexivity.
Qed.

Lemma analysis_score_9 (a : Analysis) :
  Qeq_bool (score (analysis_based_evaluation a)) 9 =
  file_readable a && data_present a
  && match formulas a with [] => false | _ => true end
  && match filter (fun f => existsb (String.eqb f) advanced_functions) (functions_used a) with
     | [] => false | _ => true end
  && Nat.ltb 0 (charts_count a)
  && match errors a with [] => true | _ => false end.
Proof.
  rewrite analysis_based_score. unfold analysis_raw_score; cbv zeta.
  destruct (file_readable a); destruct (data_present a);
    destruct (formulas a);
    destruct (filter (fun f => existsb (String.eqb f) advanced_functions) (functions_used a));
    destruct (Nat.ltb 0 (charts_count a)); destruct (errors a); vm_compute; reflexivity.
Qed.

Lemma analysis_score_le_9 (a : Analysis) :
  1 <= score (analysis_based_evaluation a) /\ score (analysis_based_evaluation a) <= 9.
Proof.
  rewrite analysis_based_score. unfold analysis_raw_score; cbv zeta.
  destruct (file_readable a); destruct (data_present a);
    destruct (formulas a);
    destruct (filter (fun f => existsb (String.eqb f) advanced_functions) (functions_used a));
    destruct (Nat.ltb 0 (charts_count a)); destruct (errors a);
    split; apply Qle_bool_iff; vm_compute; reflexivity.
Qed.

(** X1: a model response is accepted exactly when [_validate_evaluation_response]
    passes on it; an accepted response's score is the number it gives for
    [overall_score], which validation has already put in [0, 10] (so the
    clamp never changes it), and its feedback is the [detailed_feedback]
    string, whose stripped length is at least 10. *)
Theorem llm_accepts_exactly_valid (ds di : string) (d : jobj) :
  (llm_result ds di (Some d) <> None <-> validate_evaluation_response d = true) /\
  (forall r, llm_result ds di (Some d) = Some r ->
     exists sc q t,
       lookup "overall_score" d = Some sc /\ as_number sc = Some q /\
       0 <= q /\ q <= 10 /\ score r == q /\
       lookup "detailed_feedback" d = Some (JStr t) /\ feedback r = t /\
       (10 <= String.length (strip t))%nat).
Proof.
  destruct (llm_result_spec ds di d) as [H1 H2]. split; [exact H1|].
  intros r Hr. destruct (H2 r Hr) as (sc & q & t & ? & ? & ? & ? & ? & ? & ? & ? & _).
  exists sc, q, t. repeat split; assumption.
Qed.

(** X2: the kind of [overall_score] decides acceptance. A missing score, a
    string score (even a numeric-looking one) or a [null] is always
    rejected. A boolean is accepted as the number 1 or 0, since [bool] is a
    subclass of [int] in Python: a response with a boolean score is accepted
    exactly when its feedback and lists pass the other checks, and it then
    scores 1 or 0. *)
Theorem llm_score_kinds (ds di : string) (d : jobj) :
  (lookup "overall_score" d = None -> llm_result ds di (Some d) = None) /\
  (forall s, lookup "overall_score" d = Some (JStr s) -> llm_result ds di (Some d) = None) /\
  (lookup "overall_score" d = Some JNull -> llm_result ds di (Some d) = None) /\
  (forall b, lookup "overall_score" d = Some (JBool b) ->
     (llm_result ds di (Some d) <> None <->
        (exists fb, lookup "detailed_feedback" d = Some fb /\ feedback_ok fb = true) /\
        list_field_ok "strengths" d = true /\ list_field_ok "improvements" d = true) /\
     (forall r, llm_result ds di (Some d) = Some r -> score r == if b then 1 else 0)).
Proof.
  pose proof (proj2 (llm_result_spec ds di d)) as H2.
  assert (Hrej : forall sc, lookup "overall_score" d = Some sc -> as_number sc = None ->
                   llm_result ds di (Some d) = None).
  { intros sc Hs Hn. destruct (llm_result ds di (Some d)) as [r|] eqn:E; [|reflexivity].
    destruct (H2 r eq_refl) as (sc' & q & _ & Hs' & Hq & _).
    rewrite Hs in Hs'. injection Hs' as <-. rewrite Hn in Hq. discriminate. }
  split; [|split; [|split]].
  - intros Hn. destruct (llm_result ds di (Some d)) as [r|] eqn:E; [|reflexivity].
    destruct (H2 r eq_refl) as (sc' & q & _ & Hs' & _). rewrite Hn in Hs'. discriminate.
  - intros s Hs. apply (Hrej _ Hs). reflexivity.
  - intros Hs. apply (Hrej _ Hs). reflexivity.
  - intros b Hs. split.
    + rewrite (proj1 (llm_result_spec ds di d)).
      unfold validate_evaluation_response. rewrite Hs.
      assert (Hq : Qle_bool 0 (if b then 1 else 0) && Qle_bool (if b then 1 else 0) 10 = true)
        by (destruct b; reflexivity).
      change (as_number (JBool b)) with (Some (if b then 1 else 0)). cbv iota beta.
      destruct (lookup "detailed_feedback" d) as [fb|].
      * rewrite Hq, andb_true_l, !andb_true_iff. split.
        -- intros [[Hf Hl] Hi]. split; [exists fb; split; [reflexivity | exact Hf]|].
           split; assumption.
        -- intros [[fb' [Ef Hf]] [Hl Hi]]. injection Ef as <-. split; [split|]; assumption.
      * split; [discriminate|]. intros [[fb' [Ef _]] _]. discriminate.
    + intros r Hr. destruct (H2 r Hr) as (sc' & q & _ & Hs' & Hq & _ & _ & Hsc & _).
      rewrite Hs in Hs'. injection Hs' as <-. simpl in Hq. injection Hq as <-. exact Hsc.
Qed.

Lemma llm_score_kinds_witness :
  lookup "overall_score"
    [("overall_score", JBool true); ("detailed_feedback", JStr "Uses SUMIF over the filtered range.")]
    = Some (JBool true) /\
  llm_result "Shows understanding of the topic" "Consider providing more specific details"
    (Some [("overall_score", JBool true);
           ("detailed_feedback", JStr "Uses SUMIF over the filtered range.")]) <> None.
Proof.
  split; [reflexivity|].
  destruct (llm_score_kinds "Shows understanding of the topic" "Consider providing more specific details"
              [("overall_score", JBool true);
               ("detailed_feedback", JStr "Uses SUMIF over the filtered range.")])
    as (_ & _ & _ & H).
  apply (proj2 (proj1 (H true eq_refl))).
  split; [eexists; split; reflexivity | split; reflexivity].
Defined.

(** X3: the [setdefault]s of an accepted response. Lists the response
    gives for [strengths] and [improvements] are kept as they are; a
    missing one becomes the one-element default list (for a text answer
    "Shows understanding of the topic" / "Consider providing more specific
    details", for an upload "File uploaded successfully" / "Consider adding
    more comprehensive documentation"); [category_scores] defaults to an
    empty object. *)
Theorem llm_defaults (d : jobj) :
  (forall r, text_llm_attempt (Some d) = Some r ->
     strengths r = match lookup "strengths" d with
                   | Some (JArr l) => l | _ => [JStr "Shows understanding of the topic"] end /\
     improvements r = match lookup "improvements" d with
                   | Some (JArr l) => l | _ => [JStr "Consider providing more specific details"] end /\
     category_scores r = Some (match lookup "category_scores" d with Some v => v | None => JObj [] end)) /\
  (forall r, excel_llm_attempt (Some d) = Some r ->
     strengths r = match lookup "strengths" d with
                   | Some (JArr l) => l | _ => [JStr "File uploaded successfully"] end /\
     improvements r = match lookup "improvements" d with
                   | Some (JArr l) => l | _ => [JStr "Consider adding more comprehensive documentation"] end /\
     category_scores r = Some (match lookup "category_scores" d with Some v => v | None => JObj [] end)).
Proof.
  split; intros r Hr.
  - destruct (llm_result_spec "Shows understanding of the topic"
                "Consider providing more specific details" d) as [_ H2].
    destruct (H2 r Hr) as (_ & _ & _ & _ & _ & _ & _ & _ & _ & _ & _ & Hs & Hi & Hc).
    split; [exact Hs | split; [exact Hi | exact Hc]].
  - destruct (llm_result_spec "File uploaded successfully"
                "Consider adding more comprehensive documentation" d) as [_ H2].
    destruct (H2 r Hr) as (_ & _ & _ & _ & _ & _ & _ & _ & _ & _ & _ & Hs & Hi & Hc).
    split; [exact Hs | split; [exact Hi | exact Hc]].
Qed.

(** X4: the keyword heuristic used when every model attempt fails never
    scores a text answer below 3 or above 8: the base 5 moves by at most
    -2 or +1 with the word count, the Excel terms add between 0 and 2, and
    the clamp to [1, 10] never binds. *)
Theorem basic_text_score_3_8 (answer : string) :
  3 <= score (create_basic_text_evaluation answer) /\
  score (create_basic_text_evaluation answer) <= 8.
Proof.
  unfold create_basic_text_evaluation, basic_text_raw_score; cbn [score]; cbv zeta.
  set (k := inject_Z (Z.of_nat (List.length (found_terms answer)))).
  assert (Hk : 0 <= k) by (unfold k; change 0 with (inject_Z 0); rewrite <- Zle_Qle; lia).
  assert (Hm : 0 <= Qmin 2 (k * (3#10)) /\ Qmin 2 (k * (3#10)) <= 2).
  { split; [apply Q.min_glb; lra | apply Q.le_min_l]. }
  set (m := Qmin 2 (k * (3#10))) in *.
  match goal with
  | |- context [clamp 1 10 (?b + m)] =>
      assert (Hb : 3 <= b + m /\ b + m <= 8) by
        (destruct (Nat.leb 50 _); [lra|]; destruct (Nat.leb 25 _); [lra|];
         destruct (Nat.ltb _ 10); lra);
      destruct (round1_bounds 30 80 (clamp 1 10 (b + m))) as [L U];
      [ rewrite clamp_id by lra; unfold inject_Z; lra
      | rewrite clamp_id by lra; unfold inject_Z; lra |]
  end.
  assert (E3 : inject_Z 30 / 10 == 3) by reflexivity.
  assert (E8 : inject_Z 80 / 10 == 8) by reflexivity.
  rewrite E3 in L. rewrite E8 in U. split; assumption.
Qed.

(** X5: every name in [functions_used] is a non-empty run of the capitals
    A-Z (what [re.findall(r'([A-Z]+)\(', ...)] can match) found in one of
    the recorded formulas, and the names are listed without repetition. *)
Theorem functions_used_names (load : string + Workbook) (read : string + DataFrame) :
  let a := comprehensive_excel_analysis load read in
  NoDup (functions_used a) /\
  forall fn, In fn (functions_used a) ->
    fn <> "" /\ all_upper fn = true /\
    exists c f, In (c, f) (formulas a) /\ In fn (find_functions f).
Proof.
  cbv zeta. unfold comprehensive_excel_analysis.
  destruct load as [e|wb]; [split; [constructor | intros _ []]|].
  destruct (wb_active wb) as [ws|]; [|split; [constructor | intros _ []]].
  assert (HF : NoDup (dedup (flat_map (fun '(_, f) => find_functions f) (formula_cells ws))) /\
    forall fn, In fn (dedup (flat_map (fun '(_, f) => find_functions f) (formula_cells ws))) ->
      fn <> "" /\ all_upper fn = true /\
      exists c f, In (c, f) (formula_cells ws) /\ In fn (find_functions f)).
  { split; [apply dedup_NoDup|]. intros fn Hin.
    apply dedup_In, in_flat_map in Hin as [[c f] [Hcf Hfn]].
    pose proof (find_funcs_aux_names (upper f) "" eq_refl) as HA.
    rewrite Forall_forall in HA. destruct (HA fn Hfn) as [Hne Hup].
    split; [exact Hne | split; [exact Hup |]]. exists c, f. split; assumption. }
  destruct read as [e|df]; [exact HF|].
  destruct (Nat.eqb (df_rows df) 0 || Nat.eqb (List.length (df_columns df)) 0); exact HF.
Qed.

(** X6: the shape of [_comprehensive_excel_analysis]'s result. Every
    recorded formula is a string cell starting with "="; data is present
    only on a readable file with no error and a non-empty data summary; an
    unreadable file yields no formulas, functions, charts or data and at
    least one error; and at most one error is ever recorded. *)
Theorem excel_analysis_shape (load : string + Workbook) (read : string + DataFrame) :
  let a := comprehensive_excel_analysis load read in
  (forall c f, In (c, f) (formulas a) -> String.prefix "=" f = true) /\
  (data_present a = true ->
     file_readable a = true /\ errors a = [] /\
     exists r n, data_summary a = Some (r, n) /\ (0 < r)%nat /\ (0 < n)%nat) /\
  (file_readable a = false ->
     formulas a = [] /\ functions_used a = [] /\ charts_count a = 0%nat /\
     data_present a = false /\ errors a <> []) /\
  (List.length (errors a) <= 1)%nat.
Proof.
  cbv zeta. unfold comprehensive_excel_analysis.
  destruct load as [e|wb].
  { simpl. repeat split; try discriminate; try (intros; contradiction); auto. }
  destruct (wb_active wb) as [ws|].
  2:{ simpl. repeat split; try discriminate; try (intros; contradiction); auto. }
  assert (HP : forall c f, In (c, f) (formula_cells ws) -> String.prefix "=" f = true)
    by (intros c f H; apply (formula_cells_prefix ws c f H)).
  destruct read as [e|df].
  { simpl. repeat split; try discriminate; auto. }
  destruct (Nat.eqb (df_rows df) 0) eqn:Hr; destruct (Nat.eqb (List.length (df_columns df)) 0) eqn:Hc;
    simpl; repeat split; try discriminate; auto.
  exists (df_rows df), (List.length (df_columns df)).
  apply Nat.eqb_neq in Hr, Hc. repeat split; lia.
Qed.

(** X7: the analysis-based score of an upload lies in [1, 9], and it
    reaches 9 exactly when the file is readable, contains data, has
    formulas using one of the advanced functions, has a chart and recorded
    no error. *)
Theorem analysis_score_max (a : Analysis) :
  1 <= score (analysis_based_evaluation a) /\ score (analysis_based_evaluation a) <= 9 /\
  (score (analysis_based_evaluation a) == 9 <->
   file_readable a = true /\ data_present a = true /\ formulas a <> [] /\
   (exists f, In f (functions_used a) /\ In f advanced_functions) /\
   (0 < charts_count a)%nat /\ errors a = []).
Proof.
  destruct (analysis_score_le_9 a) as [L U].
  split; [exact L | split; [exact U |]].
  rewrite <- Qeq_bool_iff, analysis_score_9.
  rewrite !andb_true_iff, Nat.ltb_lt.
  assert (Hadv : match filter (fun f => existsb (String.eqb f) advanced_functions) (functions_used a)
                 with [] => false | _ => true end = true <->
                 exists f, In f (functions_used a) /\ In f advanced_functions).
  { destruct (filter _ _) as [|g l] eqn:E; split.
    - discriminate.
    - intros [f [H1 H2]].
      assert (Hf : In f (filter (fun f => existsb (String.eqb f) advanced_functions)
                           (functions_used a))).
      { apply filter_In. split; [exact H1|]. apply existsb_exists.
        exists f. split; [exact H2 | apply String.eqb_refl]. }
      rewrite E in Hf. contradiction.
    - intros _. assert (Hg : In g (g :: l)) by (left; reflexivity).
      rewrite <- E, filter_In in Hg. destruct Hg as [H1 H2].
      apply existsb_exists in H2 as [f [H2 H3]]. apply String.eqb_eq in H3. subst f.
      exists g. split; assumption.
    - intros _. reflexivity. }
  rewrite Hadv.
  assert (Hf : match formulas a with [] => false | _ => true end = true <-> formulas a <> [])
    by (destruct (formulas a); split; congruence).
  assert (He : match errors a with [] => true | _ => false end = true <-> errors a = [])
    by (destruct (errors a); split; congruence).
  rewrite Hf, He. tauto.
Qed.

End EvaluationExtra.

(** * Further properties of the interview agent *)

Module AgentExtra.
Import Agent PyFacts AgentFacts.

Lemma available_incl (tested : list string) : incl (available_skills tested) skill_areas.
Proof.
  unfold available_skills.
  destruct (filter (fun skill => negb (mem skill tested)) skill_areas) as [|x l] eqn:E.
  - apply incl_refl.
  - intros s Hs. rewrite <- E in Hs. apply filter_In in Hs. apply Hs.
Qed.

(** The entry appended by [_generate_next_question]. *)
Lemma generate_entry (a : InterviewAgent) (llm : list (option jobj)) :
  exists q d,
    generate_next_question a llm =
      ({| state := set_history (question_history (state a) ++ [q])%list
                     (set_count (question_count (state a) + 1) (state a));
          tested_skills := set_add (skill_area q) (tested_skills a) |}, Some d) /\
    question_id q = (question_count (state a) + 1)%Z /\
    In (skill_area q) (available_skills (tested_skills a)).
Proof.
  destruct (generate_spec a llm) as (q & d & E & [H | (attempt & H)]);
    exists q, d; split; try exact E.
  - unfold basic_question in H. injection H as Hq _. subst q. simpl.
    split; [reflexivity|].
    pose proof (available_skills_nonempty (tested_skills a)) as Hne.
    destruct (available_skills (tested_skills a)) as [|s l]; [contradiction | left; reflexivity].
  - destruct (nth attempt llm None) as [d0|]; [|discriminate].
    pose proof (question_attempt_spec (set_count (question_count (state a) + 1) (state a))
                  (available_skills (tested_skills a)) d0) as S.
    rewrite H in S. destruct S as (Hid & _ & _ & _ & Hsk & Hne).
    split; [exact Hid|]. rewrite Hsk.
    destruct (jstr_in (lookup "skill_area" d0) (available_skills (tested_skills a))) eqn:Ej.
    + apply jstr_in_mem. exact Ej.
    + apply hd_In. exact Hne.
Qed.

Lemma set_add_skills_ok (x : string) (xs : list string) :
  In x skill_areas -> skills_ok xs -> skills_ok (set_add x xs).
Proof.
  intros Hx [Hnd Hinc]. unfold set_add. destruct (mem x xs) eqn:E; [split; assumption|].
  split.
  - apply NoDup_app; [exact Hnd | constructor; [intros [] | constructor] |].
    intros y Hy [<-|[]]. apply mem_In in Hy. congruence.
  - intros y Hy. apply in_app_or in Hy as [Hy|[<-|[]]]; [apply Hinc; exact Hy | exact Hx].
Qed.

Lemma generate_ok (a : InterviewAgent) (llm : list (option jobj)) :
  numbering_ok (state a) -> skills_ok (tested_skills a) ->
  (List.length (question_history (state a)) < 5)%nat ->
  let a' := fst (generate_next_question a llm) in
  numbering_ok (state a') /\ skills_ok (tested_skills a') /\
  current_phase (state a') = current_phase (state a) /\
  overall_score (state a') = overall_score (state a) /\
  exists q, question_history (state a') = (question_history (state a) ++ [q])%list.
Proof.
  intros (Hm & Hc & Hid & Hl) Hsk Hlt.
  destruct (generate_entry a llm) as (q & d & E & Hq & Hin). rewrite E. simpl.
  split; [|split; [|split; [reflexivity | split; [reflexivity | exists q; reflexivity]]]].
  - unfold numbering_ok; simpl. rewrite List.length_app. simpl.
    split; [exact Hm|]. split; [rewrite Hc; lia|]. split; [|lia].
    rewrite map_app, Hid, Nat.add_1_r, seq_S, map_app. simpl. rewrite Hq, Hc. f_equal.
    f_equal. f_equal. lia.
  - apply set_add_skills_ok; [apply (available_incl (tested_skills a)); exact Hin | exact Hsk].
Qed.

Lemma wrap_up_ok (a : InterviewAgent) :
  numbering_ok (state a) -> skills_ok (tested_skills a) ->
  Forall answered (question_history (state a)) ->
  List.length (question_history (state a)) = 5%nat ->
  session_ok (fst (handle_wrap_up a)).
Proof.
  intros Hn Hs Ha Hl. unfold session_ok; simpl.
  split; [exact Hn|]. split; [exact Hs|].
  split; [discriminate|]. split; [discriminate|]. split; [discriminate|].
  intros _. split; [discriminate|]. split; assumption.
Qed.

Lemma questioning_continue_ok (a : InterviewAgent) (ev : option EvalDict) (env : TurnEnv) :
  numbering_ok (state a) -> skills_ok (tested_skills a) ->
  current_phase (state a) = QUESTIONING ->
  Forall answered (question_history (state a)) ->
  session_ok (fst (questioning_continue a ev env)).
Proof.
  intros Hn Hs Hp Ha. rewrite questioning_continue_fst.
  pose proof Hn as (Hm & Hc & Hid & Hl).
  destruct (Z.leb (max_questions (state a)) (question_count (state a))) eqn:E.
  - apply Z.leb_le in E. rewrite Hm, Hc in E.
    apply wrap_up_ok; [exact Hn | exact Hs | exact Ha | simpl; lia].
  - apply Z.leb_gt in E. rewrite Hm, Hc in E.
    destruct (generate_ok a (gen_llm env) Hn Hs ltac:(lia)) as (Hn2 & Hs2 & Hp2 & Ho2 & q & Eh2).
    unfold session_ok. rewrite Hp2, Hp, Eh2.
    split; [exact Hn2|]. split; [exact Hs2|].
    split; [discriminate|]. split; [discriminate|]. split; [|discriminate].
    intros _. split; [destruct (question_history (state a)); discriminate|].
    rewrite removelast_last. exact Ha.
Qed.

Lemma process_response_ok (a : InterviewAgent) (i : string) (f : option (list Byte.byte))
    (env : TurnEnv) :
  session_ok a -> session_ok (fst (process_response a i f env)).
Proof.
  intros (Hn & Hs & Hw & Hi & Hq & Hc). rewrite process_response_fst.
  destruct (current_phase (state a)) eqn:Ep.
  - rewrite handle_introduction_fst.
    specialize (Hi eq_refl).
    match goal with
    | |- session_ok (fst (generate_next_question ?b ?l)) =>
        assert (Hnb : numbering_ok (state b)) by (destruct Hn as (? & ? & ? & ?); repeat split; assumption);
        destruct (generate_ok b l Hnb Hs ltac:(simpl; rewrite Hi; simpl; lia))
          as (Hn2 & Hs2 & Hp2 & Ho2 & q & Eh2)
    end.
    unfold session_ok. rewrite Hp2, Eh2. simpl. rewrite Hi. simpl.
    split; [exact Hn2|]. split; [exact Hs2|].
    split; [discriminate|]. split; [discriminate|]. split; [|discriminate].
    intros _. split; [discriminate | constructor].
  - destruct (Hq eq_refl) as [Hne Hans].
    destruct (history_cases (question_history (state a))) as [Eh | (h & q & Eh)];
      [contradiction|].
    destruct (handle_questioning_fst a i f env h q Eh) as (ev & _ & E). rewrite E.
    rewrite Eh, removelast_last in Hans.
    apply questioning_continue_ok; [| exact Hs | exact Ep |].
    + destruct Hn as (Hm & Hcnt & Hid & Hl). rewrite Eh in Hcnt, Hid, Hl.
      unfold numbering_ok; simpl.
      rewrite List.length_app in *. simpl in *.
      split; [exact Hm|]. split; [exact Hcnt|]. split; [|exact Hl].
      rewrite map_app in *. exact Hid.
    + simpl. apply Forall_app. split; [exact Hans|].
      constructor; [apply answered_record | constructor].
  - contradiction.
  - unfold session_ok. rewrite Ep.
    split; [exact Hn|]. split; [exact Hs|].
    split; [discriminate|]. split; [discriminate|]. split; [discriminate|]. exact Hc.
Qed.

Lemma start_ok (a : InterviewAgent) (now : string) :
  skills_ok (tested_skills a) -> session_ok (fst (start_interview a now)).
Proof.
  intros Hs. unfold session_ok, numbering_ok; simpl.
  split; [repeat split; lia|]. split; [exact Hs|].
  split; [discriminate|]. split; [reflexivity|]. split; discriminate.
Qed.

Lemma run_ops_ok (now : string) (ops : list Op) : session_ok (run_ops now ops).
Proof.
  unfold run_ops.
  assert (H0 : session_ok (init_agent now)).
  { unfold session_ok, numbering_ok, skills_ok; simpl.
    split; [repeat split; lia|]. split; [split; [constructor | intros ? []]|].
    split; [discriminate|]. split; [reflexivity|]. split; discriminate. }
  revert H0. generalize (init_agent now). induction ops as [|op ops IH]; intros a H; simpl; [exact H|].
  apply IH. destruct op as [t | i f env]; simpl.
  - apply start_ok. apply H.
  - apply process_response_ok. exact H.
Qed.

Lemma questioning_continue_history (a : InterviewAgent) (ev : option EvalDict) (env : TurnEnv) :
  exists ext, question_history (state (fst (questioning_continue a ev env))) =
              (question_history (state a) ++ ext)%list.
Proof.
  rewrite questioning_continue_fst.
  destruct (Z.leb _ _).
  - exists []. simpl. rewrite app_nil_r. reflexivity.
  - destruct (generate_spec a (gen_llm env)) as (q & d & E & _). rewrite E.
    exists [q]. reflexivity.
Qed.

(** X8: when every one of the three evaluator attempts raises, the answer
    is still recorded: the current question keeps its number and gets the
    candidate's answer, the score 0 and the "Please resubmit your
    response" improvement, and a score of 0 lowers the difficulty by one
    level (not below 1). *)
Theorem evaluator_outage (a : InterviewAgent) (i : string) (f : option (list Byte.byte))
    (env : TurnEnv) (h : list QuestionHistory) (q : QuestionHistory) :
  current_phase (state a) = QUESTIONING ->
  question_history (state a) = (h ++ [q])%list ->
  (forall k, (k < 3)%nat -> nth k (eval_outcomes env) None = None) ->
  let a' := fst (process_response a i f env) in
  current_difficulty (state a') = Z.max 1 (current_difficulty (state a) - 1) /\
  exists qa ext,
    question_history (state a') = (h ++ qa :: ext)%list /\
    question_id qa = question_id q /\ answer qa = Some i /\ score qa = Some 0 /\
    improvements qa = [JStr "Please resubmit your response"].
Proof.
  intros Hp Eh Hout.
  assert (Hev : evaluate_response (eval_outcomes env) = Some evaluation_error_dict).
  { unfold evaluate_response. apply with_retries_3_all_fail.
    intros k Hk. rewrite (Hout k Hk). reflexivity. }
  cbv zeta. rewrite process_response_fst, Hp.
  destruct (handle_questioning_fst a i f env h q Eh) as (ev & Hev' & E).
  rewrite Hev in Hev'. injection Hev' as <-. rewrite E.
  split.
  - rewrite questioning_continue_difficulty. reflexivity.
  - match goal with
    | |- context [questioning_continue ?b ?e ?v] =>
        destruct (questioning_continue_history b e v) as [ext Hx]
    end.
    rewrite Hx. simpl.
    exists (record_evaluation evaluation_error_dict (record_answer i f q)), ext.
    split; [rewrite <- app_assoc; reflexivity|]. repeat split.
Qed.

Lemma evaluator_outage_witness :
  let env := mkTurnEnv [] [] in
  let a := fst (process_response (fst (start_interview (init_agent "20240101_000000") "20240101_000100"))
                  "Ana" None env) in
  let q := hd (fst (basic_question (state a) [])) (question_history (state a)) in
  current_phase (state a) = QUESTIONING /\
  question_history (state a) = ([] ++ [q])%list /\
  (forall k, (k < 3)%nat -> nth k (eval_outcomes env) None = None) /\
  current_difficulty (state (fst (process_response a "=SUM(A1:A3)" None env))) = 1%Z.
Proof.
  intros env a q.
  assert (Hp : current_phase (state a) = QUESTIONING) by (vm_compute; reflexivity).
  assert (Eh : question_history (state a) = ([] ++ [q])%list) by (vm_compute; reflexivity).
  assert (Ho : forall k, (k < 3)%nat -> nth k (eval_outcomes env) None = None)
    by (intros k _; destruct k; reflexivity).
  split; [exact Hp|]. split; [exact Eh|]. split; [exact Ho|].
  destruct (evaluator_outage a "=SUM(A1:A3)" None env [] q Hp Eh Ho) as [Hd _].
  rewrite Hd. vm_compute. reflexivity.
Defined.

(** X9: whatever the model proposes, [tested_skills] only ever holds the
    seven known skill areas, each at most once, in every session reachable
    from the agent's creation (restarts included). *)
Theorem tested_skills_known (now : string) (ops : list Op) :
  NoDup (tested_skills (run_ops now ops)) /\
  incl (tested_skills (run_ops now ops)) skill_areas /\
  (List.length (tested_skills (run_ops now ops)) <= 7)%nat.
Proof.
  destruct (run_ops_ok now ops) as (_ & [Hnd Hinc] & _).
  split; [exact Hnd|]. split; [exact Hinc|].
  exact (NoDup_incl_length Hnd Hinc).
Qed.

(** X10: in every agent reachable from its creation, [question_count] is
    the number of history entries, the entries are numbered 1, 2, ... in
    order and there are at most 5 of them; the agent is never left in the
    wrap-up phase; the introduction phase has no question yet; while
    questioning, every question but the current one has been scored; a
    completed interview has exactly 5 scored questions and an overall
    score. *)
Theorem session_numbering (now : string) (ops : list Op) :
  let st := state (run_ops now ops) in
  max_questions st = 5%Z /\
  question_count st = Z.of_nat (List.length (question_history st)) /\
  map question_id (question_history st) =
    map Z.of_nat (seq 1 (List.length (question_history st))) /\
  (List.length (question_history st) <= 5)%nat /\
  current_phase st <> WRAP_UP /\
  (current_phase st = INTRODUCTION -> question_history st = []) /\
  (current_phase st = QUESTIONING ->
     question_history st <> [] /\ Forall answered (removelast (question_history st))) /\
  (current_phase st = COMPLETED ->
     overall_score st <> None /\ Forall answered (question_history st) /\
     List.length (question_history st) = 5%nat).
Proof.
  destruct (run_ops_ok now ops) as ((Hm & Hc & Hid & Hl) & _ & Hw & Hi & Hq & Hcomp).
  exact (conj Hm (conj Hc (conj Hid (conj Hl (conj Hw (conj Hi (conj Hq Hcomp))))))).
Qed.

(** X11: [process_response] reports an error only in the completed phase:
    in the introduction, questioning and wrap-up phases no handler raises
    (the evaluator and the model are retried and fall back), so the
    response carries no [error] key. *)
Theorem no_error_before_completion (a : InterviewAgent) (i : string)
    (f : option (list Byte.byte)) (env : TurnEnv) :
  current_phase (state a) <> COMPLETED ->
  r_error (snd (process_response a i f env)) = None.
Proof.
  intros Hp. unfold process_response.
  destruct (current_phase (state a)) eqn:Ep; [| | | contradiction].
  - unfold handle_introduction.
    destruct (generate_next_question _ _). reflexivity.
  - unfold handle_questioning_phase.
    destruct (last (map Some (question_history (state a))) None) as [cq|].
    + destruct (evaluate_response_some (eval_outcomes env)) as [ev Hev]. rewrite Hev.
      unfold questioning_continue. destruct (Z.leb _ _); [reflexivity|].
      destruct (generate_next_question _ _). reflexivity.
    + unfold questioning_continue. destruct (Z.leb _ _); [reflexivity|].
      destruct (generate_next_question _ _). reflexivity.
  - reflexivity.
Qed.

Lemma no_error_before_completion_witness :
  let a := fst (start_interview (init_agent "20240101_000000") "20240101_000100") in
  current_phase (state a) <> COMPLETED /\
  r_error (snd (process_response a "Ana" None (mkTurnEnv [] []))) = None.
Proof.
  intros a.
  assert (Hp : current_phase (state a) <> COMPLETED) by (simpl; discriminate).
  split; [exact Hp | exact (no_error_before_completion a "Ana" None (mkTurnEnv [] []) Hp)].
Defined.

(** X12: the summary of any reachable agent reports as many completed
    questions as [question_count] (at most 5), the skills it tested
    (known skill areas, each once), the level "Needs Improvement" when no
    overall score is set, and for a completed interview its overall score
    with the level computed from it. *)
Theorem summary_consistent (now : string) (ops : list Op) :
  let a := run_ops now ops in
  let sm := get_interview_summary a in
  Z.of_nat (s_questions_completed sm) = question_count (state a) /\
  (s_questions_completed sm <= 5)%nat /\
  NoDup (s_skills_tested sm) /\ incl (s_skills_tested sm) skill_areas /\
  (s_overall_score sm = None -> s_performance_level sm = "Needs Improvement") /\
  (current_phase (state a) = COMPLETED ->
     exists s, s_overall_score sm = Some s /\ s_performance_level sm = agent_performance_level s).
Proof.
  destruct (run_ops_ok now ops) as ((Hm & Hc & Hid & Hl) & [Hnd Hinc] & _ & _ & _ & Hcomp).
  cbv zeta. unfold get_interview_summary; simpl.
  split; [symmetry; exact Hc|]. split; [exact Hl|].
  split; [exact Hnd|]. split; [exact Hinc|]. split.
  - intros ->. reflexivity.
  - intros Hp. destruct (Hcomp Hp) as [Hs _].
    destruct (overall_score (state (run_ops now ops))) as [s|]; [|contradiction].
    exists s. split; reflexivity.
Qed.

End AgentExtra.

(** * Further properties of the performance report *)

Module ReportExtra.
Import Report ReportFacts.

Lemma report_shape (qs : list QuestionEntry) (r : ReportResult) :
  create_performance_report (Some qs) = inr r -> report r <> None ->
  exists recs,
    generate_recommendations (Agent.mean (all_scores qs)) (build_breakdown qs)
      (flat_map q_improvements qs) = inr recs /\
    r = {| report := Some
             {| overall_score := round1 (Agent.mean (all_scores qs));
                report_level := get_performance_level (Agent.mean (all_scores qs));
                total_questions := List.length qs;
                questions_completed := List.length (all_scores qs);
                skill_breakdown := map (fun '(k, d) => (k, skill_entry d)) (build_breakdown qs);
                strengths := jdedup (flat_map q_strengths qs);
                improvements := jdedup (flat_map q_improvements qs);
                recommendations := recs |};
           error := None |}.
Proof.
  intros H Hr. destruct qs as [|q0 qs'].
  { simpl in H. injection H as <-. simpl in Hr. contradiction. }
  unfold create_performance_report in H.
  destruct (generate_recommendations _ _ _) as [e|recs] eqn:E; [discriminate|].
  destruct (negb _); [discriminate|].
  injection H as <-. exists recs. split; reflexivity.
Qed.

(** The messages of [_generate_recommendations]. *)
Lemma skill_rec_msgs (weak : list (string * SkillData)) (y : string) :
  In y (flat_map (fun '(s, _) =>
          let l := lower s in
          if contains "lookup" l then ["Practice VLOOKUP, INDEX/MATCH functions with different datasets"]
          else if contains "pivot" l then ["Create pivot tables with various data sources and analyze trends"]
          else if contains "chart" l then ["Learn different chart types and when to use each effectively"]
          else if contains "formula" l then ["Study array formulas and nested function combinations"]
          else []) weak) ->
  In y ["Practice VLOOKUP, INDEX/MATCH functions with different datasets";
        "Create pivot tables with various data sources and analyze trends";
        "Learn different chart types and when to use each effectively";
        "Study array formulas and nested function combinations"].
Proof.
  rewrite in_flat_map. intros ([s d] & _ & H). cbv zeta in H.
  destruct (contains "lookup" (lower s)); [destruct H as [<-|[]]; simpl; tauto|].
  destruct (contains "pivot" (lower s)); [destruct H as [<-|[]]; simpl; tauto|].
  destruct (contains "chart" (lower s)); [destruct H as [<-|[]]; simpl; tauto|].
  destruct (contains "formula" (lower s)); [destruct H as [<-|[]]; simpl; tauto | destruct H].
Qed.

Lemma In_firstn_In {A} (n : nat) (l : list A) (x : A) : In x (firstn n l) -> In x l.
Proof.
  intros H. rewrite <- (firstn_skipn n l). apply in_or_app. left. exact H.
Qed.

Lemma recommendations_spec (overall : Q) (bd : list (string * SkillData)) (imps : list jval) :
  let band :=
    if negb (Qle_bool 5 overall)
    then ["Start with Excel basics: cell references, simple formulas, and basic functions";
          "Practice using SUM, AVERAGE, COUNT functions regularly"]
    else if negb (Qle_bool 7 overall)
    then ["Focus on intermediate Excel features like VLOOKUP and pivot tables";
          "Learn conditional formatting and data validation"]
    else ["Explore advanced Excel features like Power Query and Power Pivot";
          "Consider learning VBA for automation"] in
  (Forall (fun v => exists s, v = JStr s) imps ->
     exists recs, generate_recommendations overall bd imps = inr recs) /\
  (forall recs, generate_recommendations overall bd imps = inr recs ->
     NoDup recs /\ incl band recs /\
     forall y, In y recs ->
       In y band \/
       In y ["Practice VLOOKUP, INDEX/MATCH functions with different datasets";
             "Create pivot tables with various data sources and analyze trends";
             "Learn different chart types and when to use each effectively";
             "Study array formulas and nested function combinations"] \/
       In y ["Practice explaining Excel concepts with real-world examples";
             "Work on providing more comprehensive explanations"]).
Proof.
  cbv zeta. unfold generate_recommendations. cbv zeta.
  match goal with
  | |- context [match ?g (firstn 3 ?c) ?r with inl e => _ | inr recs => _ end] =>
      assert (G : forall xs acc,
                 (Forall (fun v => exists s, v = JStr s) xs -> exists out, g xs acc = inr out) /\
                 (forall out, g xs acc = inr out ->
                    incl acc out /\
                    forall y, In y out -> In y acc \/
                      In y ["Practice explaining Excel concepts with real-world examples";
                            "Work on providing more comprehensive explanations"]));
      [ induction xs as [|x xs IH]; intros acc;
        [ split; [intros _; eexists; reflexivity|];
          intros out H; injection H as <-; split; [apply incl_refl | intros y Hy; left; exact Hy]
        | split;
          [ intros Hf; inversion Hf as [|? ? [s ->] Hf']; subst; simpl;
            destruct (contains "example" (lower s)); [|destruct (contains "detail" (lower s))];
            apply IH; exact Hf'
          | intros out H; simpl in H;
            destruct x; try discriminate;
            destruct (IH (acc ++ (if contains "example" (lower s)
                                 then ["Practice explaining Excel concepts with real-world examples"]
                                 else if contains "detail" (lower s)
                                 then ["Work on providing more comprehensive explanations"]
                                 else []))%list) as [_ IH2];
            destruct (contains "example" (lower s)); [|destruct (contains "detail" (lower s))];
            destruct (IH2 out H) as [Hinc Hy];
            (split; [intros z Hz; apply Hinc; apply in_or_app; left; exact Hz|]);
            intros y Hy'; destruct (Hy y Hy') as [Ha|Ha]; try (right; exact Ha);
            apply in_app_or in Ha as [Ha|Ha]; try (left; exact Ha);
            right; simpl in Ha |- *; tauto ] ]
      |];
      split;
      [ intros Hf;
        destruct (proj1 (G (firstn 3 c) r)) as [out Hout];
        [ apply Forall_forall; intros v Hv; apply In_firstn_In, filter_In in Hv;
          rewrite Forall_forall in Hf; apply Hf; apply Hv
        | rewrite Hout; eexists; reflexivity ]
      | intros recs H;
        destruct (g (firstn 3 c) r) as [e|out] eqn:Hg; [discriminate|];
        injection H as <-;
        destruct (proj2 (G (firstn 3 c) r) out Hg) as [Hinc Hy] ]
  end.
  split; [apply EvaluationExtra.dedup_NoDup|]. split.
  - intros z Hz. apply EvaluationExtra.dedup_In. apply Hinc. apply in_or_app. left. exact Hz.
  - intros y Hy'. apply (proj1 (EvaluationExtra.dedup_In _ _)) in Hy'.
    destruct (Hy y Hy') as [Ha|Ha]; [|right; right; exact Ha].
    apply in_app_or in Ha as [Ha|Ha]; [left; exact Ha|].
    right; left. exact (skill_rec_msgs _ y Ha).
Qed.

Lemma add_to_breakdown_questions (bd : list (string * SkillData)) (k : string) (sc : list Q) :
  list_sum (map (fun p => sd_questions (snd p)) (add_to_breakdown bd k sc)) =
  S (list_sum (map (fun p => sd_questions (snd p)) bd)).
Proof.
  induction bd as [|[k' d'] bd IH]; simpl; [reflexivity|].
  destruct (String.eqb k k'); simpl; [reflexivity|]. rewrite IH. lia.
Qed.

Lemma build_breakdown_questions (qs : list QuestionEntry) :
  list_sum (map (fun p => sd_questions (snd p)) (build_breakdown qs)) = List.length qs.
Proof.
  unfold build_breakdown.
  assert (G : forall bd, list_sum (map (fun p => sd_questions (snd p))
                (fold_left (fun bd q => add_to_breakdown bd (skill_of q) (entry_scores q)) qs bd)) =
              (list_sum (map (fun p => sd_questions (snd p)) bd) + List.length qs)%nat).
  { induction qs as [|q qs IH]; intros bd; simpl; [lia|].
    rewrite IH, add_to_breakdown_questions. lia. }
  rewrite G. reflexivity.
Qed.

Lemma entries_questions (bd : list (string * SkillData)) :
  map (fun p => questions_asked (snd p)) (map (fun '(k, d) => (k, skill_entry d)) bd) =
  map (fun p => sd_questions (snd p)) bd.
Proof. induction bd as [|[k d] bd IH]; simpl; [reflexivity | rewrite IH; reflexivity]. Qed.

Lemma all_scores_length (qs : list QuestionEntry) :
  List.length (all_scores qs) =
  List.length (filter (fun q => match q_score q with Some _ => true | None => false end) qs).
Proof.
  unfold all_scores. induction qs as [|q qs IH]; simpl; [reflexivity|].
  rewrite List.length_app, IH. unfold entry_scores. destruct (q_score q); reflexivity.
Qed.

Lemma report_totals_aux (qs : list QuestionEntry) (r : ReportResult) (rep : PerformanceReport) :
  create_performance_report (Some qs) = inr r -> report r = Some rep ->
  total_questions rep = List.length qs /\
  list_sum (map (fun p => questions_asked (snd p)) (skill_breakdown rep)) = List.length qs /\
  questions_completed rep = List.length (all_scores qs).
Proof.
  intros H Hr. destruct (report_shape qs r H) as (recs & _ & ->); [congruence|].
  simpl in Hr. injection Hr as <-. simpl.
  split; [reflexivity|]. split; [|reflexivity].
  rewrite entries_questions. apply build_breakdown_questions.
Qed.

Lemma report_exists (qs : list QuestionEntry) :
  qs <> [] ->
  (forall q, In q qs -> Forall (fun v => hashable v = true) (q_strengths q) /\
                       Forall (fun v => exists s, v = JStr s) (q_improvements q)) ->
  exists rep, create_performance_report (Some qs) = inr {| report := Some rep; error := None |}.
Proof.
  intros Hne Hq. destruct qs as [|q0 qs']; [contradiction|].
  set (qs := q0 :: qs') in *.
  assert (Hi : Forall (fun v => exists s, v = JStr s) (flat_map q_improvements qs)).
  { apply Forall_forall. intros v Hv. apply in_flat_map in Hv as (q & Hq' & Hv).
    destruct (Hq q Hq') as [_ Hf]. rewrite Forall_forall in Hf. apply Hf. exact Hv. }
  assert (Hs : forallb hashable (flat_map q_strengths qs) = true).
  { apply forallb_forall. intros v Hv. apply in_flat_map in Hv as (q & Hq' & Hv).
    destruct (Hq q Hq') as [Hf _]. rewrite Forall_forall in Hf. apply Hf. exact Hv. }
  assert (Hh : forallb hashable (flat_map q_improvements qs) = true).
  { apply forallb_forall. intros v Hv. rewrite Forall_forall in Hi.
    destruct (Hi v Hv) as [s ->]. reflexivity. }
  destruct (proj1 (recommendations_spec (Agent.mean (all_scores qs)) (build_breakdown qs)
                     (flat_map q_improvements qs)) Hi) as [recs E].
  unfold create_performance_report. unfold qs at 1. cbv beta iota zeta. fold qs.
  rewrite E, Hs, Hh. simpl. eexists. reflexivity.
Qed.

Lemma py_eqb_trans (x w v : jval) : py_eqb x w = true -> py_eqb w v = true -> py_eqb x v = true.
Proof.
  destruct x, w, v; simpl; intros H1 H2; try discriminate; try reflexivity;
    repeat match goal with
           | H : String.eqb _ _ = true |- _ => apply String.eqb_eq in H; subst
           end;
    try apply String.eqb_refl;
    apply Qeq_bool_iff in H1, H2; apply Qeq_bool_iff; exact (Qeq_trans _ _ _ H1 H2).
Qed.

Lemma jdedup_spec (xs : list jval) :
  ForallOrdPairs (fun x y => py_eqb x y = false) (jdedup xs) /\
  incl (jdedup xs) xs /\
  forall v, In v xs -> exists w, In w (jdedup xs) /\ (w = v \/ py_eqb w v = true).
Proof.
  induction xs as [|x xs (IH1 & IH2 & IH3)]; simpl.
  - split; [constructor|]. split; [intros ? []|]. intros v [].
  - split; [|split].
    + constructor.
      * apply Forall_forall. intros y Hy. apply filter_In in Hy as [_ Hy].
        apply negb_true_iff in Hy. exact Hy.
      * clear IH2 IH3. induction IH1 as [|a l Ha Hl IHl]; simpl; [constructor|].
        destruct (negb (py_eqb x a)); [|exact IHl].
        constructor; [|exact IHl].
        apply Forall_forall. intros y Hy. apply filter_In in Hy as [Hy _].
        rewrite Forall_forall in Ha. apply Ha. exact Hy.
    + intros y [<-|Hy]; [left; reflexivity|].
      apply filter_In in Hy as [Hy _]. right. apply IH2. exact Hy.
    + intros v [<-|Hv]; [exists x; split; [left; reflexivity | left; reflexivity]|].
      destruct (IH3 v Hv) as (w & Hw & Hwv).
      destruct (py_eqb x w) eqn:E.
      * exists x. split; [left; reflexivity|]. right.
        destruct Hwv as [<-|Hwv]; [exact E | exact (py_eqb_trans x w v E Hwv)].
      * exists w. split; [|exact Hwv]. right. apply filter_In. rewrite E. split; [exact Hw | reflexivity].
Qed.

Lemma summary_entries_scores (h : list Agent.QuestionHistory) :
  Forall Agent.answered h ->
  List.length (all_scores (map (fun q => {| q_skill_area := Some (Agent.skill_area q);
                                           q_score := Agent.score q;
                                           q_strengths := Agent.strengths q;
                                           q_improvements := Agent.improvements q |}) h)) =
  List.length h.
Proof.
  induction 1 as [|q h [s Hs] _ IH]; simpl; [reflexivity|].
  unfold all_scores in *. simpl. rewrite List.length_app, IH.
  unfold entry_scores; simpl. rewrite Hs. reflexivity.
Qed.

(** X13: the totals of a report: [total_questions] is the number of
    history entries, the [questions_asked] of the skill breakdown add up
    to it, and [questions_completed] counts the entries with a non-null
    score, so it never exceeds [total_questions]. *)
Theorem report_totals (qs : list QuestionEntry) (r : ReportResult) (rep : PerformanceReport) :
  create_performance_report (Some qs) = inr r -> report r = Some rep ->
  total_questions rep = List.length qs /\
  list_sum (map (fun p => questions_asked (snd p)) (skill_breakdown rep)) = List.length qs /\
  questions_completed rep =
    List.length (filter (fun q => match q_score q with Some _ => true | None => false end) qs) /\
  (questions_completed rep <= total_questions rep)%nat.
Proof.
  intros H Hr. destruct (report_totals_aux qs r rep H Hr) as (E1 & E2 & E3).
  rewrite all_scores_length in E3.
  split; [exact E1|]. split; [exact E2|]. split; [exact E3|].
  rewrite E1, E3. apply filter_length_le.
Qed.

Lemma report_totals_witness :
  let e (k : string) (s : option Q) :=
    mkEntry (Some k) s [JStr "Clear explanation"] [JStr "Add more detail"] in
  let qs := [e "Charts and Visualization" (Some 8); e "Lookup Functions (VLOOKUP, INDEX/MATCH)" None;
             e "Charts and Visualization" (Some 6)] in
  exists r rep, create_performance_report (Some qs) = inr r /\ report r = Some rep /\
    total_questions rep = 3%nat /\ questions_completed rep = 2%nat.
Proof.
  intros e qs.
  destruct (create_performance_report (Some qs)) as [msg|r] eqn:E.
  { vm_compute in E. discriminate. }
  destruct (report r) as [rep|] eqn:Er.
  2:{ vm_compute in E. injection E as <-. discriminate Er. }
  exists r, rep. split; [first [exact E | reflexivity]|]. split; [exact Er|].
  destruct (report_totals qs r rep E Er) as (E1 & _ & E3 & _).
  rewrite E1, E3. split; reflexivity.
Defined.

(** X14: the recommendations of a report have no repetition and always
    contain both messages of the candidate's band (overall mean below 5,
    below 7, or at least 7); every other recommendation is one of the four
    weak-skill messages or one of the two messages for recurring
    improvements, so the messages of the other two bands never appear. *)
Theorem report_recommendations (qs : list QuestionEntry) (r : ReportResult)
    (rep : PerformanceReport) :
  create_performance_report (Some qs) = inr r -> report r = Some rep ->
  let overall := Agent.mean (all_scores qs) in
  let band :=
    if negb (Qle_bool 5 overall)
    then ["Start with Excel basics: cell references, simple formulas, and basic functions";
          "Practice using SUM, AVERAGE, COUNT functions regularly"]
    else if negb (Qle_bool 7 overall)
    then ["Focus on intermediate Excel features like VLOOKUP and pivot tables";
          "Learn conditional formatting and data validation"]
    else ["Explore advanced Excel features like Power Query and Power Pivot";
          "Consider learning VBA for automation"] in
  NoDup (recommendations rep) /\ incl band (recommendations rep) /\
  forall y, In y (recommendations rep) ->
    In y band \/
    In y ["Practice VLOOKUP, INDEX/MATCH functions with different datasets";
          "Create pivot tables with various data sources and analyze trends";
          "Learn different chart types and when to use each effectively";
          "Study array formulas and nested function combinations"] \/
    In y ["Practice explaining Excel concepts with real-world examples";
          "Work on providing more comprehensive explanations"].
Proof.
  intros H Hr. destruct (report_shape qs r H) as (recs & E & ->); [congruence|].
  simpl in Hr. injection Hr as <-. simpl.
  exact (proj2 (recommendations_spec _ _ _) recs E).
Qed.

Lemma report_recommendations_witness :
  let e (k : string) (s : option Q) :=
    mkEntry (Some k) s [JStr "Clear explanation"] [JStr "Add more detail"] in
  let qs := [e "Charts and Visualization" (Some 9); e "Pivot Tables and Data Analysis" (Some 8)] in
  exists r rep, create_performance_report (Some qs) = inr r /\ report r = Some rep /\
    NoDup (recommendations rep) /\ In "Consider learning VBA for automation" (recommendations rep).
Proof.
  intros e qs.
  destruct (create_performance_report (Some qs)) as [msg|r] eqn:E.
  { vm_compute in E. discriminate. }
  destruct (report r) as [rep|] eqn:Er.
  2:{ vm_compute in E. injection E as <-. discriminate Er. }
  exists r, rep. split; [first [exact E | reflexivity]|]. split; [exact Er|].
  pose proof (report_recommendations qs r rep E Er) as H. cbv zeta in H.
  destruct H as (Hnd & Hband & _). split; [exact Hnd|].
  apply Hband. apply AgentFacts.mem_In. vm_compute. reflexivity.
Defined.

(** X15: [create_performance_report] returns a report (and no error) for
    every non-empty history whose strengths are hashable and whose
    improvements are strings; it can only raise on an unhashable entry or
    on a recurring non-string improvement. *)
Theorem report_total (qs : list QuestionEntry) :
  qs <> [] ->
  (forall q, In q qs -> Forall (fun v => hashable v = true) (q_strengths q) /\
                       Forall (fun v => exists s, v = JStr s) (q_improvements q)) ->
  exists rep, create_performance_report (Some qs) = inr {| report := Some rep; error := None |}.
Proof. exact (report_exists qs). Qed.

Lemma report_total_witness :
  let qs := [mkEntry (Some "Charts and Visualization") (Some 7) [JBool true; JNum 3]
               [JStr "Add an example"; JStr "Add an example"];
             mkEntry None None [] [JStr "Be concise"]] in
  qs <> [] /\
  (forall q, In q qs -> Forall (fun v => hashable v = true) (q_strengths q) /\
                       Forall (fun v => exists s, v = JStr s) (q_improvements q)) /\
  exists rep, create_performance_report (Some qs) = inr {| report := Some rep; error := None |}.
Proof.
  intros qs.
  assert (Hne : qs <> []) by discriminate.
  assert (Hq : forall q, In q qs -> Forall (fun v => hashable v = true) (q_strengths q) /\
                                  Forall (fun v => exists s, v = JStr s) (q_improvements q)).
  { intros q [<-|[<-|[]]]; simpl; split; repeat constructor; eexists; reflexivity. }
  split; [exact Hne|]. split; [exact Hq|]. exact (report_total qs Hne Hq).
Defined.

(** X16: the report's strengths and improvements are the collected ones
    with duplicates removed as [set(...)] does: no two of them are equal
    in Python's sense (so [True] and [1] count as one), each comes from the
    history, and each collected one is in the report or equal to one that
    is. *)
Theorem report_dedup (qs : list QuestionEntry) (r : ReportResult) (rep : PerformanceReport) :
  create_performance_report (Some qs) = inr r -> report r = Some rep ->
  ForallOrdPairs (fun x y => py_eqb x y = false) (strengths rep) /\
  incl (strengths rep) (flat_map q_strengths qs) /\
  (forall v, In v (flat_map q_strengths qs) ->
     exists w, In w (strengths rep) /\ (w = v \/ py_eqb w v = true)) /\
  ForallOrdPairs (fun x y => py_eqb x y = false) (improvements rep) /\
  incl (improvements rep) (flat_map q_improvements qs) /\
  (forall v, In v (flat_map q_improvements qs) ->
     exists w, In w (improvements rep) /\ (w = v \/ py_eqb w v = true)).
Proof.
  intros H Hr. destruct (report_shape qs r H) as (recs & _ & ->); [congruence|].
  simpl in Hr. injection Hr as <-. simpl.
  destruct (jdedup_spec (flat_map q_strengths qs)) as (A1 & A2 & A3).
  destruct (jdedup_spec (flat_map q_improvements qs)) as (B1 & B2 & B3).
  repeat split; assumption.
Qed.

Lemma report_dedup_witness :
  let qs := [mkEntry (Some "Charts and Visualization") (Some 7) [JBool true; JNum 1; JStr "Clear"] [];
             mkEntry (Some "Charts and Visualization") (Some 9) [JStr "Clear"] []] in
  exists r rep, create_performance_report (Some qs) = inr r /\ report r = Some rep /\
    ForallOrdPairs (fun x y => py_eqb x y = false) (strengths rep) /\
    List.length (strengths rep) = 2%nat.
Proof.
  intros qs.
  destruct (create_performance_report (Some qs)) as [msg|r] eqn:E.
  { vm_compute in E. discriminate. }
  destruct (report r) as [rep|] eqn:Er.
  2:{ vm_compute in E. injection E as <-. discriminate Er. }
  exists r, rep. split; [first [exact E | reflexivity]|]. split; [exact Er|].
  destruct (report_dedup qs r rep E Er) as (H1 & _). split; [exact H1|].
  vm_compute in E. injection E as <-. vm_compute in Er. injection Er as <-. reflexivity.
Defined.

(** X17: the final report of a completed interview ([generate_final_report]
    in the app, from [get_interview_summary]) counts 5 of 5 questions
    completed, and it is produced whenever the evaluator's strengths are
    hashable and its improvements are strings. *)
Theorem completed_session_report (now : string) (ops : list Agent.Op) :
  let a := Agent.run_ops now ops in
  Agent.current_phase (Agent.state a) = Agent.COMPLETED ->
  (forall r rep, final_report a = inr r -> report r = Some rep ->
     total_questions rep = 5%nat /\ questions_completed rep = 5%nat) /\
  ((forall q, In q (Agent.question_history (Agent.state a)) ->
      Forall (fun v => hashable v = true) (Agent.strengths q) /\
      Forall (fun v => exists s, v = JStr s) (Agent.improvements q)) ->
   exists rep, final_report a = inr {| report := Some rep; error := None |}).
Proof.
  cbv zeta. intros Hp.
  destruct (AgentExtra.run_ops_ok now ops) as (_ & _ & _ & _ & _ & Hc).
  destruct (Hc Hp) as (_ & Hans & Hlen).
  unfold final_report, summary_entries, Agent.get_interview_summary. simpl.
  split.
  - intros r rep H Hr.
    destruct (report_totals_aux _ r rep H Hr) as (E1 & _ & E3).
    rewrite E1, E3, List.length_map, summary_entries_scores by exact Hans.
    split; exact Hlen.
  - intros Hq. apply report_exists.
    + intros E. apply (f_equal (@List.length QuestionEntry)) in E.
      rewrite List.length_map, Hlen in E. discriminate.
    + intros q Hin. apply in_map_iff in Hin as (q' & <- & Hin). simpl. apply Hq. exact Hin.
Qed.

Lemma completed_session_report_witness :
  let env := Agent.mkTurnEnv [] [] in
  let ops := [Agent.OpStart "20240101_000000"; Agent.OpRespond "Ana" None env;
              Agent.OpRespond "=SUM(A1:A10)" None env; Agent.OpRespond "=VLOOKUP(B2,D:E,2,0)" None env;
              Agent.OpRespond "=AVERAGE(C1:C9)" None env; Agent.OpRespond "=COUNT(A:A)" None env;
              Agent.OpRespond "=SUMIF(A:A,1)" None env] in
  let a := Agent.run_ops "20240101_000000" ops in
  Agent.current_phase (Agent.state a) = Agent.COMPLETED /\
  exists r rep, final_report a = inr r /\ report r = Some rep /\ questions_completed rep = 5%nat.
Proof.
  intros env ops a.
  assert (Hp : Agent.current_phase (Agent.state a) = Agent.COMPLETED) by (vm_compute; reflexivity).
  split; [exact Hp|].
  destruct (completed_session_report "20240101_000000" ops Hp) as [H1 _].
  destruct (final_report a) as [msg|r] eqn:E.
  { vm_compute in E. discriminate. }
  destruct (report r) as [rep|] eqn:Er.
  2:{ vm_compute in E. injection E as <-. discriminate Er. }
  exists r, rep. split; [first [exact E | reflexivity]|]. split; [exact Er|].
  exact (proj2 (H1 r rep E Er)).
Defined.

End ReportExtra.
